(** * inputgeneration.c: voxel-grid generator, embedded and verified

    The program resolves the acquisition geometry from its command line,
    writes a 16-integer header (unless built with -DRAW) and streams the
    voxel grid to the output file, at most [OBJ_BUFFER] horizontal slices
    at a time.

    Conventions of the embedding:
    - a C [int] is a [Z] kept in the 32-bit two's-complement range by
      [CInt.wrap]; ISO C leaves signed overflow undefined, the embedding
      fixes the result the usual targets give, and the theorems that need
      "no overflow" say so in their hypotheses;
    - a C [double] is a primitive binary64 [float];
    - the [FILE*] is a record holding what has been appended so far, and
      the device behind it decides how many elements each [fwrite] takes;
    - the malloc'ed buffer is a map from element indices to doubles whose
      initial contents are arbitrary (they belong to the environment). *)

From Stdlib Require Import ZArith List Lia Bool String Ascii.
From Stdlib Require Import Floats.
Import ListNotations.
Local Open Scope Z_scope.

(** ** C integers *)

Module CInt.

Definition INT_MIN : Z := -2147483648.
Definition INT_MAX : Z := 2147483647.

Definition in_range (z : Z) : Prop := INT_MIN <= z <= INT_MAX.

(** Reduction to the 32-bit two's-complement range. *)
Definition wrap (z : Z) : Z := (z + 2 ^ 31) mod 2 ^ 32 - 2 ^ 31.

Definition add (a b : Z) : Z := wrap (a + b).
Definition sub (a b : Z) : Z := wrap (a - b).
Definition mul (a b : Z) : Z := wrap (a * b).
(** C's [/] truncates toward zero. *)
Definition div (a b : Z) : Z := wrap (Z.quot a b).

(** Conversion of an [int] to [size_t] (64 bits, modular). *)
Definition to_size_t (z : Z) : Z := z mod 2 ^ 64.
Definition size_mul (a b : Z) : Z := (a * b) mod 2 ^ 64.

Definition LONG_MIN : Z := - 2 ^ 63.
Definition LONG_MAX : Z := 2 ^ 63 - 1.
Definition clamp_long (z : Z) : Z := Z.max LONG_MIN (Z.min LONG_MAX z).

End CInt.

(** ** C doubles *)

Module CDouble.

(** [(double) z] for an [int] [z]: exact. *)
Definition of_int (z : Z) : float :=
  if z <? 0 then PrimFloat.opp (PrimFloat.of_uint63 (Uint63.of_Z (- z)))
  else PrimFloat.of_uint63 (Uint63.of_Z z).

(** [(int) f]: the fractional part is discarded (truncation toward
    zero).  A value outside the range of [int], an infinity or a NaN has
    no defined conversion in ISO C; x86-64 yields [INT_MIN] there, and so
    does the embedding. *)
Definition to_int (f : float) : Z :=
  match Prim2SF f with
  | S754_zero _ => 0
  | S754_finite s m e =>
      let a := if 0 <=? e then Z.pos m * 2 ^ e else Z.shiftr (Z.pos m) (- e) in
      let v := if s then - a else a in
      if (CInt.INT_MIN <=? v) && (v <=? CInt.INT_MAX) then v else CInt.INT_MIN
  | _ => CInt.INT_MIN
  end.

End CDouble.

(** ** <stdlib.h>: atoi *)

Definition isspace (c : ascii) : bool :=
  let n := nat_of_ascii c in
  Nat.eqb n 32 || (Nat.leb 9 n && Nat.leb n 13).

Definition digit_value (c : ascii) : option Z :=
  let n := Z.of_nat (nat_of_ascii c) in
  if (48 <=? n) && (n <=? 57) then Some (n - 48) else None.

Fixpoint skip_spaces (s : string) : string :=
  match s with
  | String c r => if isspace c then skip_spaces r else s
  | EmptyString => s
  end.

(** The value of the longest prefix of decimal digits ([0] when empty). *)
Fixpoint digits (acc : Z) (s : string) : Z :=
  match s with
  | String c r =>
      match digit_value c with
      | Some d => digits (10 * acc + d) r
      | None => acc
      end
  | EmptyString => acc
  end.

(** [strtol(s, NULL, 10)]: white space, an optional sign, digits;
    saturating at the bounds of [long]. *)
Definition strtol (s : string) : Z :=
  match skip_spaces s with
  | String c r =>
      if Ascii.eqb c "-" then CInt.clamp_long (- digits 0 r)
      else if Ascii.eqb c "+" then CInt.clamp_long (digits 0 r)
      else CInt.clamp_long (digits 0 (String c r))
  | EmptyString => 0
  end.

(** [atoi(s)] is [(int) strtol(s, NULL, 10)]. *)
Definition atoi (s : string) : Z := CInt.wrap (strtol s).



(** ** common.h

    The header is not part of the sources at hand: its macros are taken as
    parameters, one field per macro that inputgeneration.c uses. *)

Record Defaults := {
  PIXEL_DIM : Z;
  ANGULAR_TRAJECTORY : Z;
  POSITIONS_ANGULAR_DISTANCE : Z;
  OBJECT_SIDE_LENGTH : Z;
  DETECTOR_SIDE_LENGTH : Z;
  DISTANCE_OBJECT_DETECTOR : Z;
  DISTANCE_OBJECT_SOURCE : Z;
  VOXEL_X_DIM : Z;
  VOXEL_Y_DIM : Z;
  VOXEL_Z_DIM : Z;
  N_VOXEL_X : Z;
  N_VOXEL_Y : Z;
  N_VOXEL_Z : Z;
  N_PLANES_X : Z;
  N_PLANES_Y : Z;
  N_PLANES_Z : Z
}.

(** The axis indices [X], [Y], [Z] of the three-element arrays. *)
Module Axis.
Inductive t : Set := X | Y | Z.
End Axis.

(** [int a[3]] *)
Record int3 := mk3 { at0 : Z; at1 : Z; at2 : Z }.

Definition get3 (a : int3) (k : Axis.t) : Z :=
  match k with Axis.X => at0 a | Axis.Y => at1 a | Axis.Z => at2 a end.

Definition set3 (a : int3) (k : Axis.t) (v : Z) : int3 :=
  match k with
  | Axis.X => mk3 v (at1 a) (at2 a)
  | Axis.Y => mk3 (at0 a) v (at2 a)
  | Axis.Z => mk3 (at0 a) (at1 a) v
  end.

(** ** The global variables of inputgeneration.c *)

Record Globals := mkGlobals {
  gl_pixelDim : Z;
  gl_angularTrajectory : Z;
  gl_positionsAngularDistance : Z;
  gl_objectSideLenght : Z;
  gl_detectorSideLength : Z;
  gl_distanceObjectDetector : Z;
  gl_distanceObjectSource : Z;
  gl_voxelXDim : Z;
  gl_voxelYDim : Z;
  gl_voxelZDim : Z;
  gl_nVoxel : int3;
  gl_nPlanes : int3
}.

Definition OBJ_BUFFER : Z := 100.
Definition DEFAULT_WORK_SIZE : Z := 2352.
Definition EXIT_FAILURE : Z := 1.
Definition sizeof_int : Z := 4.
Definition sizeof_double : Z := 8.

Definition N_PIXEL_ALONG_SIDE (D : Defaults) : Z :=
  CInt.div (DETECTOR_SIDE_LENGTH D) (PIXEL_DIM D).

(** The initialisers of the globals (lines 91-108). *)
Definition initial_globals (D : Defaults) : Globals :=
  {| gl_pixelDim := PIXEL_DIM D;
     gl_angularTrajectory := ANGULAR_TRAJECTORY D;
     gl_positionsAngularDistance := POSITIONS_ANGULAR_DISTANCE D;
     gl_objectSideLenght := OBJECT_SIDE_LENGTH D;
     gl_detectorSideLength := DETECTOR_SIDE_LENGTH D;
     gl_distanceObjectDetector := DISTANCE_OBJECT_DETECTOR D;
     gl_distanceObjectSource := DISTANCE_OBJECT_SOURCE D;
     gl_voxelXDim := VOXEL_X_DIM D;
     gl_voxelYDim := VOXEL_Y_DIM D;
     gl_voxelZDim := VOXEL_Z_DIM D;
     gl_nVoxel := mk3 (N_VOXEL_X D) (N_VOXEL_Y D) (N_VOXEL_Z D);
     gl_nPlanes := mk3 (N_PLANES_X D) (N_PLANES_Y D) (N_PLANES_Z D) |}.

(** Assignments to single globals. *)
Definition set_objectSideLenght (v : Z) (g : Globals) : Globals :=
  mkGlobals (gl_pixelDim g) (gl_angularTrajectory g) (gl_positionsAngularDistance g)
    v (gl_detectorSideLength g) (gl_distanceObjectDetector g)
    (gl_distanceObjectSource g) (gl_voxelXDim g) (gl_voxelYDim g) (gl_voxelZDim g)
    (gl_nVoxel g) (gl_nPlanes g).

Definition set_detectorSideLength (v : Z) (g : Globals) : Globals :=
  mkGlobals (gl_pixelDim g) (gl_angularTrajectory g) (gl_positionsAngularDistance g)
    (gl_objectSideLenght g) v (gl_distanceObjectDetector g)
    (gl_distanceObjectSource g) (gl_voxelXDim g) (gl_voxelYDim g) (gl_voxelZDim g)
    (gl_nVoxel g) (gl_nPlanes g).

Definition set_distanceObjectDetector (v : Z) (g : Globals) : Globals :=
  mkGlobals (gl_pixelDim g) (gl_angularTrajectory g) (gl_positionsAngularDistance g)
    (gl_objectSideLenght g) (gl_detectorSideLength g) v
    (gl_distanceObjectSource g) (gl_voxelXDim g) (gl_voxelYDim g) (gl_voxelZDim g)
    (gl_nVoxel g) (gl_nPlanes g).

Definition set_distanceObjectSource (v : Z) (g : Globals) : Globals :=
  mkGlobals (gl_pixelDim g) (gl_angularTrajectory g) (gl_positionsAngularDistance g)
    (gl_objectSideLenght g) (gl_detectorSideLength g) (gl_distanceObjectDetector g)
    v (gl_voxelXDim g) (gl_voxelYDim g) (gl_voxelZDim g)
    (gl_nVoxel g) (gl_nPlanes g).

Definition set_nVoxel (k : Axis.t) (v : Z) (g : Globals) : Globals :=
  mkGlobals (gl_pixelDim g) (gl_angularTrajectory g) (gl_positionsAngularDistance g)
    (gl_objectSideLenght g) (gl_detectorSideLength g) (gl_distanceObjectDetector g)
    (gl_distanceObjectSource g) (gl_voxelXDim g) (gl_voxelYDim g) (gl_voxelZDim g)
    (set3 (gl_nVoxel g) k v) (gl_nPlanes g).

Definition set_nPlanes (k : Axis.t) (v : Z) (g : Globals) : Globals :=
  mkGlobals (gl_pixelDim g) (gl_angularTrajectory g) (gl_positionsAngularDistance g)
    (gl_objectSideLenght g) (gl_detectorSideLength g) (gl_distanceObjectDetector g)
    (gl_distanceObjectSource g) (gl_voxelXDim g) (gl_voxelYDim g) (gl_voxelZDim g)
    (gl_nVoxel g) (set3 (gl_nPlanes g) k v).

Definition nVoxel (g : Globals) (k : Axis.t) : Z := get3 (gl_nVoxel g) k.
Definition nPlanes (g : Globals) (k : Axis.t) : Z := get3 (gl_nPlanes g) k.
Definition voxelDim (g : Globals) (k : Axis.t) : Z :=
  match k with
  | Axis.X => gl_voxelXDim g
  | Axis.Y => gl_voxelYDim g
  | Axis.Z => gl_voxelZDim g
  end.

(** ** Parameter resolution (main, lines 166-181) *)

(** The body of [if (argc > 3)], after [n = atoi(argv[3])]: the product
    [n * gl_voxelXDim] is an [int], the quotient of the defaults is a
    [double], and each assignment converts back to [int]. *)
Definition setUpFromPixels (D : Defaults) (n : Z) (g : Globals) : Globals :=
  let g := set_objectSideLenght
             (CDouble.to_int
                (PrimFloat.mul
                   (CDouble.of_int (CInt.mul n (gl_voxelXDim g)))
                   (PrimFloat.div
                      (CDouble.of_int (OBJECT_SIDE_LENGTH D))
                      (CDouble.of_int (CInt.mul (VOXEL_X_DIM D) (N_PIXEL_ALONG_SIDE D))))))
             g in
  let g := set_detectorSideLength (CInt.mul n (gl_pixelDim g)) g in
  let g := set_distanceObjectDetector
             (CDouble.to_int
                (PrimFloat.mul 1.5%float (CDouble.of_int (gl_objectSideLenght g)))) g in
  let g := set_distanceObjectSource (CInt.mul 6 (gl_objectSideLenght g)) g in
  g.

(** Lines 175-181. *)
Definition computeGridCounts (g : Globals) : Globals :=
  let g := set_nVoxel Axis.X (CInt.div (gl_objectSideLenght g) (gl_voxelXDim g)) g in
  let g := set_nVoxel Axis.Y (CInt.div (gl_objectSideLenght g) (gl_voxelYDim g)) g in
  let g := set_nVoxel Axis.Z (CInt.div (gl_objectSideLenght g) (gl_voxelZDim g)) g in
  let g := set_nPlanes Axis.X
             (CInt.add (CInt.div (gl_objectSideLenght g) (gl_voxelXDim g)) 1) g in
  let g := set_nPlanes Axis.Y
             (CInt.add (CInt.div (gl_objectSideLenght g) (gl_voxelYDim g)) 1) g in
  let g := set_nPlanes Axis.Z
             (CInt.add (CInt.div (gl_objectSideLenght g) (gl_voxelZDim g)) 1) g in
  g.

(** The element [argv[i]]. *)
Definition arg (argv : list string) (i : nat) : string := nth i argv EmptyString.

(** The globals after line 181, for a command line of 2 to 4 words. *)
Definition resolve (D : Defaults) (argv : list string) : Globals :=
  let argc := Z.of_nat (List.length argv) in
  let g := initial_globals D in
  let n := DEFAULT_WORK_SIZE in
  let n := if argc >? 3 then atoi (arg argv 3) else n in
  let g := if argc >? 3 then setUpFromPixels D n g else g in
  computeGridCounts g.

(** ** voxel.c: the slice generators

    [main] calls [generateCubeSlice], [generateSphereSlice] and
    [generateCubeWithSphereSlice], which voxel.c defines; voxel.c is not
    among the sources at hand, so the three are modelled from section 4.2
    of the specification. *)

Section Voxel.

(** Modelled from the spec: the fraction of its side-length argument that
    gives the radius of the cavity, "fixed by design" in voxel.c and left
    open by the specification. *)
Variables CAVITY_NUM CAVITY_DEN : Z.

(** Modelled from the spec: the membership test of voxel.c,
    [dx*dx + dy*dy + dz*dz <= radius*radius], points on the surface being
    inside. *)
Definition inside_sphere (dx dy dz radius : Z) : bool :=
  dx * dx + dy * dy + dz * dz <=? radius * radius.

(** Modelled from the spec: twice the coordinate of the centre of voxel
    [i] along axis [k], relative to the centre of the volume, in physical
    units (voxel.c is missing). *)
Definition centre2 (g : Globals) (k : Axis.t) (i : Z) : Z :=
  2 * i * voxelDim g k + voxelDim g k - gl_objectSideLenght g.

(** Modelled from the spec: twice the same coordinate in voxel units
    (voxel.c is missing). *)
Definition index2 (g : Globals) (k : Axis.t) (i : Z) : Z :=
  2 * i + 1 - nVoxel g k.

(** Modelled from the spec: the density rule of [generateCubeSlice] in
    voxel.c, 1 for every voxel. *)
Definition cube_density (x y z : Z) : float := 1%float.

(** Modelled from the spec: the density rule of [generateSphereSlice] in
    voxel.c, 1 inside the sphere of the given radius about the centre of
    the volume and 0 outside. *)
Definition sphere_density (g : Globals) (radius : Z) (x y z : Z) : float :=
  if inside_sphere (centre2 g Axis.X x) (centre2 g Axis.Y y) (centre2 g Axis.Z z)
       (2 * radius)
  then 1%float else 0%float.

(** Modelled from the spec: the density rule of
    [generateCubeWithSphereSlice] in voxel.c, 0 inside the concentric
    cavity, whose radius is the fixed fraction of the side length, and 1
    outside. *)
Definition cavity_density (g : Globals) (sideLength : Z) (x y z : Z) : float :=
  if inside_sphere (CAVITY_DEN * index2 g Axis.X x) (CAVITY_DEN * index2 g Axis.Y y)
       (CAVITY_DEN * index2 g Axis.Z z) (2 * CAVITY_NUM * sideLength)
  then 0%float else 1%float.

(** Modelled from the spec: the order of the values of one horizontal
    slice in voxel.c, [x] varying fastest, then [z]. *)
Definition layer (g : Globals) (density : Z -> Z -> Z -> float) (y : Z) : list float :=
  flat_map
    (fun z => map (fun x => density (Z.of_nat x) y (Z.of_nat z))
                (seq 0 (Z.to_nat (nVoxel g Axis.X))))
    (seq 0 (Z.to_nat (nVoxel g Axis.Z))).

(** Modelled from the spec: the values voxel.c computes for the slices
    [offset, offset + nOfSlices), lowest first, from those slices only. *)
Definition layers (g : Globals) (density : Z -> Z -> Z -> float)
    (offset : Z) (nOfSlices : nat) : list float :=
  flat_map (fun n => layer g density (offset + Z.of_nat n)) (seq 0 nOfSlices).

(** Modelled from the spec: the writes of a generator of voxel.c into the
    caller's buffer, from its start; the rest keeps its contents. *)
Definition store (f : nat -> float) (values : list float) : nat -> float :=
  fun i => nth i values (f i).

(** Modelled from the spec: [generateCubeSlice] of voxel.c. *)
Definition generateCubeSlice (g : Globals) (f : nat -> float)
    (nOfSlices offset sideLength : Z) : nat -> float :=
  store f (layers g cube_density offset (Z.to_nat nOfSlices)).

(** Modelled from the spec: [generateSphereSlice] of voxel.c. *)
Definition generateSphereSlice (g : Globals) (f : nat -> float)
    (nOfSlices offset radius : Z) : nat -> float :=
  store f (layers g (sphere_density g radius) offset (Z.to_nat nOfSlices)).

(** Modelled from the spec: [generateCubeWithSphereSlice] of voxel.c. *)
Definition generateCubeWithSphereSlice (g : Globals) (f : nat -> float)
    (nOfSlices offset sideLength : Z) : nat -> float :=
  store f (layers g (cavity_density g sideLength) offset (Z.to_nat nOfSlices)).

End Voxel.

(** ** The output stream *)

(** What the file holds: the elements appended so far, each an [int] or a
    [double] in the machine's own representation. *)
Inductive Cell : Type :=
| IntCell (v : Z)
| DoubleCell (d : float).

Definition cell_size (c : Cell) : Z :=
  match c with IntCell _ => sizeof_int | DoubleCell _ => sizeof_double end.

(** Offset in bytes of the end of a sequence of elements. *)
Definition byte_length (l : list Cell) : Z :=
  fold_right (fun c n => cell_size c + n) 0 l.

Record FILE := mkFILE {
  contents : list Cell;
  calls : nat                (* number of fwrite calls made on the stream *)
}.

(** The environment of a run. *)
Record Env := mkEnv {
  fopen_succeeds : string -> bool;  (* can the named file be opened for writing *)
  device : nat -> Z -> Z;           (* elements taken by the k-th fwrite, asked for c *)
  heap : nat -> float;              (* contents of freshly allocated memory *)
  little_endian : bool
}.

(** [fwrite(ptr, size, count, fp)]: appends the first elements found at
    [ptr], as many as the device takes and no more than [count], and
    returns their number. *)
Definition fwrite (e : Env) (ptr : nat -> Cell) (count : Z) (fp : FILE) : Z * FILE :=
  let k := Z.max 0 (Z.min count (device e (calls fp) count)) in
  (k, {| contents := contents fp ++ map ptr (seq 0 (Z.to_nat k));
         calls := S (calls fp) |}).

(** ** The program *)

Inductive Message : Type :=
| Usage (program : string)
| UnableToOpenFile
| UnableToWriteOnFile
| OutputFileDetails (modelSize bits width height offset images : Z)
    (littleEndian : bool).

(** The state the statements of [main] act on. *)
Record State := mkState {
  gl : Globals;              (* the global variables *)
  grid : nat -> float;       (* the buffer [grid] points to *)
  filePoiter : FILE;
  printed : list Message     (* stdout and stderr, in order *)
}.

Definition print (m : Message) (st : State) : State :=
  mkState (gl st) (grid st) (filePoiter st) (printed st ++ [m]).

Definition with_file (fp : FILE) (st : State) : State :=
  mkState (gl st) (grid st) fp (printed st).

Definition with_grid (f : nat -> float) (st : State) : State :=
  mkState (gl st) f (filePoiter st) (printed st).

(** The array [setUp] of [writeSetUp]. *)
Definition setUp (g : Globals) : list Z :=
  [ gl_pixelDim g;
    gl_angularTrajectory g;
    gl_positionsAngularDistance g;
    gl_objectSideLenght g;
    gl_detectorSideLength g;
    gl_distanceObjectDetector g;
    gl_distanceObjectSource g;
    gl_voxelXDim g;
    gl_voxelYDim g;
    gl_voxelZDim g;
    get3 (gl_nVoxel g) Axis.X;
    get3 (gl_nVoxel g) Axis.Y;
    get3 (gl_nVoxel g) Axis.Z;
    get3 (gl_nPlanes g) Axis.X;
    get3 (gl_nPlanes g) Axis.Y;
    get3 (gl_nPlanes g) Axis.Z ].

(** [writeSetUp]: the length of the header in bytes, or [0] when [fwrite]
    returns [0]. *)
Definition writeSetUp (e : Env) (st : State) : Z * State :=
  let a := setUp (gl st) in
  let n := Z.of_nat (List.length a) in
  let (k, fp) := fwrite e (fun i => IntCell (nth i a 0)) n (filePoiter st) in
  if k =? 0 then (0, with_file fp st) else (sizeof_int * n, with_file fp st).

Inductive Control : Type :=
| Finished
| Exited (status : Z).

(** What a run leaves behind. *)
Record Result := mkResult {
  exit_status : Z;
  messages : list Message;
  file : option (list Cell);     (* [None]: the file was never opened *)
  globals : Globals
}.

(** The value of [objectType] after line 165. *)
Definition objectTypeOf (argv : list string) : Z :=
  let argc := Z.of_nat (List.length argv) in
  let objectType := 0 in
  if argc >? 2 then atoi (arg argv 2) else objectType.

Section Main.

Variable D : Defaults.
Variable RAW : bool.                   (* built with -DRAW *)
Variables CAVITY_NUM CAVITY_DEN : Z.
Variable e : Env.

(** The [switch] of lines 217-227. *)
Definition generateSubsection (objectType nOfSlices slice : Z) (st : State) : State :=
  match objectType with
  | 1 =>
      with_grid (generateCubeWithSphereSlice CAVITY_NUM CAVITY_DEN (gl st) (grid st)
                   nOfSlices slice (nVoxel (gl st) Axis.X)) st
  | 2 =>
      with_grid (generateSphereSlice (gl st) (grid st)
                   nOfSlices slice (CInt.div (gl_objectSideLenght (gl st)) 2)) st
  | _ =>
      with_grid (generateCubeSlice (gl st) (grid st)
                   nOfSlices slice (nVoxel (gl st) Axis.X)) st
  end.

(** The [for] loop of lines 207-233, entered with [slice]; [objBuffer]
    stands for [OBJ_BUFFER].  [None]: the fuel ran out before the loop
    ended. *)
Fixpoint generationLoop (fuel : nat) (objBuffer objectType slice : Z) (st : State)
    : option (Control * State) :=
  if slice <? nVoxel (gl st) Axis.Y then
    match fuel with
    | O => None
    | S fuel' =>
        let nOfSlices :=
          if CInt.sub (nVoxel (gl st) Axis.Y) slice <? objBuffer
          then CInt.sub (nVoxel (gl st) Axis.Y) slice
          else objBuffer in
        let st := generateSubsection objectType nOfSlices slice st in
        let count :=
          CInt.to_size_t
            (CInt.mul (CInt.mul (nVoxel (gl st) Axis.X) (nVoxel (gl st) Axis.Z))
               nOfSlices) in
        let (k, fp) := fwrite e (fun i => DoubleCell (grid st i)) count (filePoiter st) in
        let st := with_file fp st in
        if k =? 0 then Some (Exited 4, print UnableToWriteOnFile st)
        else generationLoop fuel' objBuffer objectType (CInt.add slice objBuffer) st
    end
  else Some (Finished, st).

Definition details (headerLength : Z) (g : Globals) : Message :=
  OutputFileDetails
    (CInt.size_mul
       (CInt.size_mul
          (CInt.size_mul sizeof_double (CInt.to_size_t (nVoxel g Axis.X)))
          (CInt.to_size_t (nVoxel g Axis.Z)))
       (CInt.to_size_t (nVoxel g Axis.Y)))
    (sizeof_double * 8)
    (nVoxel g Axis.X) (nVoxel g Axis.Z) headerLength (nVoxel g Axis.Y)
    (little_endian e).

(** Lines 206-253: the loop, then the summary. *)
Definition generate (fuel : nat) (objectType headerLength : Z) (st : State)
    : option Result :=
  match generationLoop fuel OBJ_BUFFER objectType 0 st with
  | None => None
  | Some (Exited status, st) =>
      Some (mkResult status (printed st) (Some (contents (filePoiter st))) (gl st))
  | Some (Finished, st) =>
      let st := print (details headerLength (gl st)) st in
      Some (mkResult 0 (printed st) (Some (contents (filePoiter st))) (gl st))
  end.

Definition main (fuel : nat) (argv : list string) : option Result :=
  let argc := Z.of_nat (List.length argv) in
  let fileName := "output.dat"%string in
  let headerLength := 0 in
  if (argc >? 4) || (argc <? 2) then
    Some (mkResult EXIT_FAILURE [Usage (arg argv 0)] None (initial_globals D))
  else
    let fileName := if argc >? 1 then arg argv 1 else fileName in
    let objectType := objectTypeOf argv in
    let g := resolve D argv in
    (* grid = malloc(sizeof(double) * gl_nVoxel[X] * gl_nVoxel[Z] * OBJ_BUFFER) *)
    let st := mkState g (heap e) (mkFILE [] 0) [] in
    if negb (fopen_succeeds e fileName) then
      Some (mkResult 2 [UnableToOpenFile] None g)
    else if RAW then generate fuel objectType headerLength st
    else
      let (headerLength, st) := writeSetUp e st in
      if headerLength =? 0 then
        let st := print UnableToWriteOnFile st in
        Some (mkResult 3 (printed st) (Some (contents (filePoiter st))) (gl st))
      else generate fuel objectType headerLength st.

End Main.

(** A set of defaults for the examples: a 400-unit cube of 100-unit
    voxels seen by a 6-pixel detector. *)
Definition small_defaults : Defaults :=
  {| PIXEL_DIM := 100; ANGULAR_TRAJECTORY := 90; POSITIONS_ANGULAR_DISTANCE := 15;
     OBJECT_SIDE_LENGTH := 400; DETECTOR_SIDE_LENGTH := 600;
     DISTANCE_OBJECT_DETECTOR := 600; DISTANCE_OBJECT_SOURCE := 2400;
     VOXEL_X_DIM := 100; VOXEL_Y_DIM := 100; VOXEL_Z_DIM := 100;
     N_VOXEL_X := 4; N_VOXEL_Y := 4; N_VOXEL_Z := 4;
     N_PLANES_X := 5; N_PLANES_Y := 5; N_PLANES_Z := 5 |}.

Definition perfect_env : Env :=
  {| fopen_succeeds := fun _ => true; device := fun _ c => c;
     heap := fun _ => 0%float; little_endian := true |}.

(** ** Notions used in the statements *)

(** The density rule behind each case of the [switch], with the last
    argument each call site passes. *)
Definition density_of (CAVITY_NUM CAVITY_DEN : Z) (objectType : Z) (g : Globals)
    : Z -> Z -> Z -> float :=
  match objectType with
  | 1 => cavity_density CAVITY_NUM CAVITY_DEN g (nVoxel g Axis.X)
  | 2 => sphere_density g (CInt.div (gl_objectSideLenght g) 2)
  | _ => cube_density
  end.

(** All three voxel counts are positive. *)
Definition valid_grid (g : Globals) : Prop :=
  0 < nVoxel g Axis.X /\ 0 < nVoxel g Axis.Y /\ 0 < nVoxel g Axis.Z.

(** The [int] computations of the loop stay in range for chunks of [K]
    slices: the voxel counts of a slice are not negative, and the element
    count of a full chunk and the loop counter do not exceed [INT_MAX]. *)
Definition fits (g : Globals) (K : Z) : Prop :=
  0 <= nVoxel g Axis.X /\ 0 <= nVoxel g Axis.Z /\ 0 < K /\
  nVoxel g Axis.X * nVoxel g Axis.Z * K <= CInt.INT_MAX /\
  nVoxel g Axis.Y + K <= CInt.INT_MAX.

(** A device that takes every element of every request. *)
Definition accepts_all (e : Env) : Prop := forall k c, c <= device e k c.

(** The chunks section 4.3 prescribes for [total] slices: chunk [j] starts
    at slice [K * j] and holds [min K (total - K * j)] slices. *)
Definition chunkPlan (K total : Z) : list (Z * Z) :=
  map (fun j => (K * Z.of_nat j, Z.min K (total - K * Z.of_nat j)))
      (seq 0 (Z.to_nat ((total + K - 1) / K))).



(** ** One iteration of the loop, in closed form *)

(** The number of slices of the chunk that starts at [slice]. *)
Definition chunkSlices (K : Z) (g : Globals) (slice : Z) : Z :=
  if CInt.sub (nVoxel g Axis.Y) slice <? K
  then CInt.sub (nVoxel g Axis.Y) slice else K.

(** The element count passed to [fwrite]. *)
Definition chunkCount (K : Z) (g : Globals) (slice : Z) : Z :=
  CInt.to_size_t
    (CInt.mul (CInt.mul (nVoxel g Axis.X) (nVoxel g Axis.Z)) (chunkSlices K g slice)).

(** The number of elements the device takes from the chunk at [slice]. *)
Definition chunkTaken (e : Env) (K : Z) (st : State) (slice : Z) : Z :=
  Z.max 0 (Z.min (chunkCount K (gl st) slice)
             (device e (calls (filePoiter st)) (chunkCount K (gl st) slice))).

(** The state after the chunk at [slice] has been generated and appended. *)
Definition afterChunk (CAVITY_NUM CAVITY_DEN : Z) (e : Env) (K objectType : Z)
    (st : State) (slice : Z) : State :=
  let values :=
    layers (gl st) (density_of CAVITY_NUM CAVITY_DEN objectType (gl st)) slice
      (Z.to_nat (chunkSlices K (gl st) slice)) in
  mkState (gl st) (store (grid st) values)
    (mkFILE
       (contents (filePoiter st)
        ++ map (fun i => DoubleCell (store (grid st) values i))
             (seq 0 (Z.to_nat (chunkTaken e K st slice))))
       (S (calls (filePoiter st))))
    (printed st).

(** ** The run up to the loop, in closed form *)

(** [2 <= argc <= 4]. *)
Definition argc_ok (argv : list string) : Prop :=
  (2 <= List.length argv <= 4)%nat.

(** The number of header fields the device takes. *)
Definition headerTaken (e : Env) : Z := Z.max 0 (Z.min 16 (device e 0%nat 16)).

(** What the file holds when the loop is entered. *)
Definition headerCells (RAW : bool) (e : Env) (g : Globals) : list Cell :=
  if RAW then [] else map IntCell (firstn (Z.to_nat (headerTaken e)) (setUp g)).

(** The value of [headerLength] when the loop is entered. *)
Definition headerLengthOf (RAW : bool) : Z := if RAW then 0 else sizeof_int * 16.

(** The state in which the loop is entered. *)
Definition stateBeforeLoop (D : Defaults) (RAW : bool) (e : Env) (argv : list string)
    : State :=
  mkState (resolve D argv) (heap e)
    (mkFILE (headerCells RAW e (resolve D argv)) (if RAW then 0%nat else 1%nat)) [].

(** ** Sample configurations and environments *)

(** The program name and output path of the examples. *)
Definition argv2 : list string := ["inputgeneration"; "output.dat"]%string.

(** Defaults whose voxels are much wider along x than the object: the
    resolved counts are [nVoxel = (0, 150, 1)]. *)
Definition lopsided_defaults : Defaults :=
  {| PIXEL_DIM := 100; ANGULAR_TRAJECTORY := 90; POSITIONS_ANGULAR_DISTANCE := 15;
     OBJECT_SIDE_LENGTH := 150; DETECTOR_SIDE_LENGTH := 600;
     DISTANCE_OBJECT_DETECTOR := 225; DISTANCE_OBJECT_SOURCE := 900;
     VOXEL_X_DIM := 1000; VOXEL_Y_DIM := 1; VOXEL_Z_DIM := 150;
     N_VOXEL_X := 0; N_VOXEL_Y := 150; N_VOXEL_Z := 1;
     N_PLANES_X := 1; N_PLANES_Y := 151; N_PLANES_Z := 2 |}.

(** A device that takes one element less than asked on its second call
    (the first data chunk after a header). *)
Definition short_env : Env :=
  {| fopen_succeeds := fun _ => true;
     device := fun k c => if Nat.eqb k 1 then c - 1 else c;
     heap := fun _ => 0%float; little_endian := true |}.


(** Command lines of the examples: the solid cube by selector, then a
    zero and a negative pixel count. *)
Definition argv_cube : list string :=
  ["inputgeneration"; "output.dat"; "3"]%string.
Definition argv_zero : list string :=
  ["inputgeneration"; "output.dat"; "3"; "0"]%string.
Definition argv_negative : list string :=
  ["inputgeneration"; "output.dat"; "3"; "-5"]%string.

(** The state in which the loop is entered for the small grid of the
    examples (a 16-integer header is in the file), and with the lopsided
    defaults. *)
Definition small_state : State :=
  stateBeforeLoop small_defaults false perfect_env argv2.
Definition lopsided_state : State :=
  stateBeforeLoop lopsided_defaults false perfect_env argv2.


(** The size in bytes asked of [malloc] for [grid] (line 184): a product
    of [size_t] values, the [int] factors being converted. *)
Definition gridBytes (g : Globals) : Z :=
  CInt.size_mul
    (CInt.size_mul
       (CInt.size_mul sizeof_double (CInt.to_size_t (nVoxel g Axis.X)))
       (CInt.to_size_t (nVoxel g Axis.Z)))
    (CInt.to_size_t OBJ_BUFFER).

(** Defaults of a one-voxel-wide column of 150 slices: two chunks. *)
Definition tall_defaults : Defaults :=
  {| PIXEL_DIM := 100; ANGULAR_TRAJECTORY := 90; POSITIONS_ANGULAR_DISTANCE := 15;
     OBJECT_SIDE_LENGTH := 150; DETECTOR_SIDE_LENGTH := 600;
     DISTANCE_OBJECT_DETECTOR := 225; DISTANCE_OBJECT_SOURCE := 900;
     VOXEL_X_DIM := 150; VOXEL_Y_DIM := 1; VOXEL_Z_DIM := 150;
     N_VOXEL_X := 1; N_VOXEL_Y := 150; N_VOXEL_Z := 1;
     N_PLANES_X := 2; N_PLANES_Y := 151; N_PLANES_Z := 2 |}.

(** A device that takes the header and the first data chunk in full and
    nothing of the next append. *)
Definition full_after_one_chunk : Env :=
  {| fopen_succeeds := fun _ => true;
     device := fun k c => if Nat.ltb k 2 then c else 0;
     heap := fun _ => 0%float; little_endian := true |}.

(** A device that takes five of the header's fields and everything after. *)
Definition short_header_env : Env :=
  {| fopen_succeeds := fun _ => true;
     device := fun k c => if Nat.eqb k 0 then 5 else c;
     heap := fun _ => 0%float; little_endian := true |}.

(** * Properties *)

(** ** Arithmetic *)

Lemma wrap_in_range (z : Z) : CInt.in_range z -> CInt.wrap z = z.
Proof.
  unfold CInt.in_range, CInt.wrap, CInt.INT_MIN, CInt.INT_MAX.
  intros H. rewrite Z.mod_small; lia.
Qed.

Lemma to_size_t_nonneg (z : Z) : 0 <= z <= CInt.INT_MAX -> CInt.to_size_t z = z.
Proof.
  unfold CInt.to_size_t, CInt.INT_MAX. intros H. apply Z.mod_small. lia.
Qed.

(** ** Lists of densities *)

Lemma flat_map_length_const {A B} (f : A -> list B) (n : nat) (l : list A) :
  (forall a, List.length (f a) = n) ->
  List.length (flat_map f l) = (List.length l * n)%nat.
Proof.
  intros Hf. induction l as [|a l IH]; simpl; [reflexivity|].
  rewrite length_app, Hf, IH. reflexivity.
Qed.

Lemma flat_map_seq_shift {B} (f : nat -> list B) (a b : nat) :
  flat_map f (seq a b) = flat_map (fun n => f (a + n)%nat) (seq 0 b).
Proof.
  revert a f. induction b as [|b IH]; intros a f; simpl; [reflexivity|].
  rewrite Nat.add_0_r. f_equal.
  rewrite (IH (S a)), (IH 1%nat).
  apply flat_map_ext. intros n. simpl. f_equal. lia.
Qed.

Lemma layer_length (g : Globals) d (y : Z) :
  List.length (layer g d y)
  = (Z.to_nat (nVoxel g Axis.Z) * Z.to_nat (nVoxel g Axis.X))%nat.
Proof.
  unfold layer.
  rewrite (flat_map_length_const _ (Z.to_nat (nVoxel g Axis.X))).
  - now rewrite length_seq.
  - intros z. now rewrite length_map, length_seq.
Qed.

Lemma layers_length (g : Globals) d (offset : Z) (n : nat) :
  List.length (layers g d offset n)
  = (n * (Z.to_nat (nVoxel g Axis.Z) * Z.to_nat (nVoxel g Axis.X)))%nat.
Proof.
  unfold layers. rewrite (flat_map_length_const _ _ _ (fun a => layer_length g d _)).
  now rewrite length_seq.
Qed.

(** Consecutive ranges of slices concatenate. *)
Lemma layers_app (g : Globals) d (offset : Z) (a b : nat) :
  layers g d offset (a + b)
  = layers g d offset a ++ layers g d (offset + Z.of_nat a) b.
Proof.
  unfold layers. rewrite seq_app, flat_map_app. f_equal.
  simpl. rewrite flat_map_seq_shift.
  apply flat_map_ext. intros n. f_equal. lia.
Qed.

(** Reading the first [k] elements of an array by index. *)
Lemma map_nth_seq {A} (values : list A) :
  forall (f : nat -> A) (k : nat),
    (k <= List.length values)%nat ->
    map (fun i => nth i values (f i)) (seq 0 k) = firstn k values.
Proof.
  induction values as [|v vs IH]; intros f k Hk; simpl in Hk.
  - assert (k = 0%nat) by lia. subst. reflexivity.
  - destruct k as [|k]; [reflexivity|].
    simpl. f_equal.
    rewrite <- seq_shift, map_map.
    rewrite <- (IH (fun i => f (S i)) k) by lia.
    apply map_ext. intros i. reflexivity.
Qed.

(** Reading back what [store] wrote does not depend on the old contents. *)
Lemma store_read (values : list float) (f : nat -> float) (k : nat) :
  (k <= List.length values)%nat ->
  map (store f values) (seq 0 k) = firstn k values.
Proof. intros Hk. unfold store. now apply map_nth_seq. Qed.

Lemma store_read_cells (values : list float) (f : nat -> float) (k : nat) :
  (k <= List.length values)%nat ->
  map (fun i => DoubleCell (store f values i)) (seq 0 k)
  = map DoubleCell (firstn k values).
Proof.
  intros Hk. rewrite <- (store_read values f k Hk), map_map. reflexivity.
Qed.

(** ** The generators and the loop *)

Section Loop.

Variables CAVITY_NUM CAVITY_DEN : Z.
Variable e : Env.

Local Abbreviation loop := (generationLoop CAVITY_NUM CAVITY_DEN e).
Local Abbreviation subsection := (generateSubsection CAVITY_NUM CAVITY_DEN).
Local Abbreviation rule := (density_of CAVITY_NUM CAVITY_DEN).

(** Each case of the switch stores the slices of its own density rule
    and touches nothing but the buffer. *)
Lemma generateSubsection_store (objectType nOfSlices slice : Z) (st : State) :
  subsection objectType nOfSlices slice st
  = with_grid
      (store (grid st)
         (layers (gl st) (rule objectType (gl st)) slice (Z.to_nat nOfSlices)))
      st.
Proof.
  unfold generateSubsection, density_of.
  destruct objectType as [|[p|p|]|p]; try reflexivity;
    destruct p; reflexivity.
Qed.

(** One iteration of the loop. *)
Lemma generationLoop_step (fuel : nat) (K objectType slice : Z) (st : State) :
  slice < nVoxel (gl st) Axis.Y ->
  loop (S fuel) K objectType slice st
  = if chunkTaken e K st slice =? 0
    then Some (Exited 4, print UnableToWriteOnFile (afterChunk CAVITY_NUM CAVITY_DEN e K objectType st slice))
    else loop fuel K objectType (CInt.add slice K) (afterChunk CAVITY_NUM CAVITY_DEN e K objectType st slice).
Proof.
  intros Hlt. cbn [generationLoop].
  apply Z.ltb_lt in Hlt. rewrite Hlt.
  fold (chunkSlices K (gl st) slice).
  rewrite generateSubsection_store.
  reflexivity.
Qed.

Lemma generationLoop_done (fuel : nat) (K objectType slice : Z) (st : State) :
  nVoxel (gl st) Axis.Y <= slice ->
  loop fuel K objectType slice st = Some (Finished, st).
Proof.
  intros Hge. apply Z.ltb_ge in Hge.
  destruct fuel; cbn [generationLoop]; rewrite Hge; reflexivity.
Qed.

(** Whatever the device does, the loop leaves the globals alone, appends
    nothing but doubles to the file, and prints its one message exactly
    when it stops with status 4. *)
Lemma generationLoop_frame (K objectType : Z) :
  forall (fuel : nat) (slice : Z) (st st' : State) (c : Control),
    loop fuel K objectType slice st = Some (c, st') ->
    gl st' = gl st /\
    (exists data,
        contents (filePoiter st') = contents (filePoiter st) ++ map DoubleCell data) /\
    ((c = Finished /\ printed st' = printed st) \/
     (c = Exited 4 /\ printed st' = printed st ++ [UnableToWriteOnFile])).
Proof.
  induction fuel as [|fuel IH]; intros slice st st' c Hrun.
  - cbn [generationLoop] in Hrun.
    destruct (slice <? nVoxel (gl st) Axis.Y); [discriminate|].
    injection Hrun as <- <-. split; [reflexivity|]. split.
    + exists []. simpl. now rewrite app_nil_r.
    + left. split; reflexivity.
  - destruct (Z.lt_ge_cases slice (nVoxel (gl st) Axis.Y)) as [Hlt|Hge].
    + rewrite (generationLoop_step fuel K objectType slice st Hlt) in Hrun.
      set (values := layers (gl st) (rule objectType (gl st)) slice
                       (Z.to_nat (chunkSlices K (gl st) slice))) in *.
      assert (Hcells :
                contents (filePoiter (afterChunk CAVITY_NUM CAVITY_DEN e K objectType st slice))
                = contents (filePoiter st)
                  ++ map DoubleCell
                       (map (store (grid st) values)
                          (seq 0 (Z.to_nat (chunkTaken e K st slice))))).
      { simpl. now rewrite map_map. }
      destruct (chunkTaken e K st slice =? 0).
      * injection Hrun as <- <-. split; [reflexivity|]. split.
        -- eexists. exact Hcells.
        -- right. split; reflexivity.
      * apply IH in Hrun. destruct Hrun as (Hgl & (data & Hdata) & Hmsg).
        split; [exact Hgl|]. split; [|exact Hmsg].
        eexists. rewrite Hdata, Hcells, <- app_assoc, <- map_app. reflexivity.
    + rewrite (generationLoop_done (S fuel) K objectType slice st Hge) in Hrun.
      injection Hrun as <- <-. split; [reflexivity|]. split.
      * exists []. simpl. now rewrite app_nil_r.
      * left. split; reflexivity.
Qed.

End Loop.

(** ** The chunk plan *)




(** ** The [int] arithmetic of a chunk *)

Section ChunkArithmetic.

Variable K : Z.
Variable g : Globals.
Hypothesis Hfits : fits g K.

Lemma chunkSlices_min (slice : Z) :
  0 <= slice < nVoxel g Axis.Y ->
  chunkSlices K g slice = Z.min K (nVoxel g Axis.Y - slice).
Proof.
  intros Hs. destruct Hfits as (_ & _ & HK & _ & HY).
  unfold chunkSlices, CInt.sub.
  rewrite wrap_in_range by (unfold CInt.in_range, CInt.INT_MIN, CInt.INT_MAX in *; lia).
  destruct (Z.ltb_spec (nVoxel g Axis.Y - slice) K); lia.
Qed.

Lemma chunkCount_product (slice : Z) :
  0 <= slice < nVoxel g Axis.Y ->
  chunkCount K g slice
  = nVoxel g Axis.X * nVoxel g Axis.Z * Z.min K (nVoxel g Axis.Y - slice).
Proof.
  intros Hs. unfold chunkCount. rewrite chunkSlices_min by assumption.
  pose proof Hfits as (_ & _ & HK & Hprod & HY).
  set (m := Z.min K (nVoxel g Axis.Y - slice)).
  assert (Hm : 0 < m <= K) by (unfold m; lia).
  destruct Hfits as (HX0 & HZ0 & _).
  assert (Hxz : 0 <= nVoxel g Axis.X * nVoxel g Axis.Z) by nia.
  assert (Hxzm : nVoxel g Axis.X * nVoxel g Axis.Z * m
                 <= nVoxel g Axis.X * nVoxel g Axis.Z * K) by nia.
  unfold CInt.mul.
  rewrite (wrap_in_range (nVoxel g Axis.X * nVoxel g Axis.Z))
    by (unfold CInt.in_range, CInt.INT_MIN, CInt.INT_MAX in *; nia).
  rewrite wrap_in_range
    by (unfold CInt.in_range, CInt.INT_MIN, CInt.INT_MAX in *; nia).
  apply to_size_t_nonneg. nia.
Qed.

End ChunkArithmetic.

(** ** A valid grid on a device that takes everything *)

Section Streaming.

Variables CAVITY_NUM CAVITY_DEN : Z.
Variable e : Env.
Variables K objectType : Z.
Variable g : Globals.

Hypothesis Hfits : fits g K.
Hypothesis HX : 0 < nVoxel g Axis.X.
Hypothesis HZ : 0 < nVoxel g Axis.Z.
Hypothesis Hdev : accepts_all e.

Local Abbreviation loop := (generationLoop CAVITY_NUM CAVITY_DEN e).
Local Abbreviation d := (density_of CAVITY_NUM CAVITY_DEN objectType g).

Lemma chunkTaken_all (st : State) (slice : Z) :
  gl st = g ->
  0 <= slice < nVoxel g Axis.Y ->
  chunkTaken e K st slice = chunkCount K g slice /\ 0 < chunkCount K g slice.
Proof.
  intros Hg Hs. unfold chunkTaken. rewrite Hg.
  pose proof (Hdev (calls (filePoiter st)) (chunkCount K g slice)) as Hd.
  rewrite (chunkCount_product K g Hfits slice Hs) in *.
  destruct Hfits as (_ & _ & HK & _ & _).
  assert (0 < nVoxel g Axis.X * nVoxel g Axis.Z * Z.min K (nVoxel g Axis.Y - slice))
    by nia.
  lia.
Qed.

(** The cells one iteration appends are the slices of its chunk. *)
Lemma afterChunk_contents (st : State) (slice : Z) :
  gl st = g ->
  0 <= slice < nVoxel g Axis.Y ->
  contents (filePoiter (afterChunk CAVITY_NUM CAVITY_DEN e K objectType st slice))
  = contents (filePoiter st)
    ++ map DoubleCell
         (layers g d slice (Z.to_nat (Z.min K (nVoxel g Axis.Y - slice)))).
Proof.
  intros Hg Hs. unfold afterChunk. cbn [filePoiter contents].
  destruct (chunkTaken_all st slice Hg Hs) as [-> _].
  rewrite Hg, (chunkSlices_min K g Hfits), (chunkCount_product K g Hfits) by assumption.
  set (m := Z.min K (nVoxel g Axis.Y - slice)).
  set (values := layers g d slice (Z.to_nat m)).
  assert (Hlen : Z.to_nat (nVoxel g Axis.X * nVoxel g Axis.Z * m)
                 = List.length values).
  { unfold values. rewrite layers_length.
    destruct Hfits as (_ & _ & HK & _ & _).
    assert (0 <= m) by (unfold m; lia). nia. }
  rewrite store_read_cells by lia.
  rewrite Hlen, firstn_all. reflexivity.
Qed.

(** With enough fuel the loop ends normally, having appended the slices
    from [slice] on, in one append per chunk. *)
Lemma generationLoop_streams :
  forall (fuel : nat) (slice : Z) (st : State),
    gl st = g ->
    0 <= slice ->
    nVoxel g Axis.Y - slice <= K * Z.of_nat fuel ->
    exists st',
      loop fuel K objectType slice st = Some (Finished, st') /\
      gl st' = g /\
      contents (filePoiter st')
      = contents (filePoiter st)
        ++ map DoubleCell (layers g d slice (Z.to_nat (nVoxel g Axis.Y - slice))) /\
      calls (filePoiter st')
      = (calls (filePoiter st)
         + Z.to_nat ((nVoxel g Axis.Y - slice + K - 1) / K))%nat /\
      printed st' = printed st.
Proof.
  pose proof Hfits as (_ & _ & HK & _ & HY).
  induction fuel as [|fuel IH]; intros slice st Hg Hs Hfuel.
  - exists st. rewrite generationLoop_done by (rewrite Hg; lia).
    replace (Z.to_nat (nVoxel g Axis.Y - slice)) with 0%nat by lia.
    assert ((nVoxel g Axis.Y - slice + K - 1) / K <= 0).
    { apply Z.lt_succ_r. apply Z.div_lt_upper_bound; lia. }
    replace (Z.to_nat ((nVoxel g Axis.Y - slice + K - 1) / K)) with 0%nat by lia.
    simpl. rewrite app_nil_r, Nat.add_0_r. auto.
  - destruct (Z.lt_ge_cases slice (nVoxel g Axis.Y)) as [Hlt|Hge].
    + rewrite generationLoop_step by (rewrite Hg; lia).
      destruct (chunkTaken_all st slice Hg (conj Hs Hlt)) as [Htaken Hcount].
      rewrite Htaken.
      destruct (Z.eqb_spec (chunkCount K g slice) 0) as [H0|_]; [lia|].
      unfold CInt.add.
      rewrite wrap_in_range
        by (unfold CInt.in_range, CInt.INT_MIN, CInt.INT_MAX in *; lia).
      set (st1 := afterChunk CAVITY_NUM CAVITY_DEN e K objectType st slice).
      assert (Hg1 : gl st1 = g) by (unfold st1, afterChunk; simpl; exact Hg).
      destruct (IH (slice + K) st1 Hg1) as (st' & Hrun & Hg' & Hc & Hn & Hp);
        [lia | lia |].
      exists st'. split; [exact Hrun|]. split; [exact Hg'|].
      split; [|split].
      * rewrite Hc. unfold st1. rewrite afterChunk_contents by (auto; lia).
        rewrite <- app_assoc, <- map_app. do 2 f_equal.
        replace (Z.to_nat (nVoxel g Axis.Y - slice))
          with (Z.to_nat (Z.min K (nVoxel g Axis.Y - slice))
                + Z.to_nat (nVoxel g Axis.Y - (slice + K)))%nat by lia.
        rewrite layers_app. f_equal.
        destruct (Z.le_gt_cases K (nVoxel g Axis.Y - slice)) as [Hfull|Hlast].
        -- f_equal. lia.
        -- replace (Z.to_nat (nVoxel g Axis.Y - (slice + K))) with 0%nat by lia.
           reflexivity.
      * rewrite Hn. unfold st1, afterChunk. cbn [filePoiter calls].
        replace (nVoxel g Axis.Y - slice + K - 1)
          with (nVoxel g Axis.Y - (slice + K) + K - 1 + 1 * K) by lia.
        rewrite (Z.div_add _ 1 K) by lia.
        assert (0 <= (nVoxel g Axis.Y - (slice + K) + K - 1) / K)
          by (apply Z.div_pos; lia).
        lia.
      * rewrite Hp. reflexivity.
    + exists st. rewrite generationLoop_done by (rewrite Hg; lia).
      replace (Z.to_nat (nVoxel g Axis.Y - slice)) with 0%nat by lia.
      assert ((nVoxel g Axis.Y - slice + K - 1) / K <= 0).
      { apply Z.lt_succ_r. apply Z.div_lt_upper_bound; lia. }
      replace (Z.to_nat ((nVoxel g Axis.Y - slice + K - 1) / K)) with 0%nat by lia.
      simpl. rewrite app_nil_r, Nat.add_0_r. auto.
Qed.

End Streaming.

(** ** The run as a whole *)

Section Run.

Variable D : Defaults.
Variable RAW : bool.
Variables CAVITY_NUM CAVITY_DEN : Z.
Variable e : Env.

Local Abbreviation run := (main D RAW CAVITY_NUM CAVITY_DEN e).
Local Abbreviation gen := (generate CAVITY_NUM CAVITY_DEN e).

Lemma argc_test (argv : list string) :
  ((Z.of_nat (List.length argv) >? 4) || (Z.of_nat (List.length argv) <? 2)) = false
  <-> argc_ok argv.
Proof.
  unfold argc_ok. rewrite orb_false_iff, Z.gtb_ltb, !Z.ltb_ge. lia.
Qed.


Lemma main_fopen_fails (fuel : nat) (argv : list string) :
  argc_ok argv ->
  fopen_succeeds e (arg argv 1) = false ->
  run fuel argv = Some (mkResult 2 [UnableToOpenFile] None (resolve D argv)).
Proof.
  intros Hargc Hopen. unfold main.
  apply argc_test in Hargc as Htest. rewrite Htest.
  replace (Z.of_nat (List.length argv) >? 1) with true
    by (symmetry; unfold argc_ok in Hargc; rewrite Z.gtb_ltb; apply Z.ltb_lt; lia).
  rewrite Hopen. reflexivity.
Qed.

(** What [writeSetUp] does to the state in which the file has just been
    opened. *)
Lemma writeSetUp_fresh (g : Globals) :
  writeSetUp e (mkState g (heap e) (mkFILE [] 0) [])
  = (if headerTaken e =? 0 then 0 else sizeof_int * 16,
     mkState g (heap e)
       (mkFILE (map IntCell (firstn (Z.to_nat (headerTaken e)) (setUp g))) 1) []).
Proof.
  unfold writeSetUp, fwrite, with_file. cbn [gl grid filePoiter printed contents calls].
  change (Z.of_nat (List.length (setUp g))) with 16.
  fold (headerTaken e).
  assert (Hk : (Z.to_nat (headerTaken e) <= List.length (setUp g))%nat).
  { change (List.length (setUp g)) with 16%nat. unfold headerTaken. lia. }
  rewrite <- (map_nth_seq (setUp g) (fun _ => 0) _ Hk), map_map.
  cbn [app]. destruct (headerTaken e =? 0); reflexivity.
Qed.

Lemma main_header_fails (fuel : nat) (argv : list string) :
  argc_ok argv ->
  fopen_succeeds e (arg argv 1) = true ->
  RAW = false ->
  device e 0%nat 16 <= 0 ->
  run fuel argv
  = Some (mkResult 3 [UnableToWriteOnFile] (Some []) (resolve D argv)).
Proof.
  intros Hargc Hopen Hraw Hdev. unfold main.
  apply argc_test in Hargc as Htest. rewrite Htest.
  replace (Z.of_nat (List.length argv) >? 1) with true
    by (symmetry; unfold argc_ok in Hargc; rewrite Z.gtb_ltb; apply Z.ltb_lt; lia).
  rewrite Hopen, Hraw. cbn [negb]. rewrite writeSetUp_fresh.
  assert (Hk : headerTaken e = 0) by (unfold headerTaken; lia).
  rewrite Hk. reflexivity.
Qed.

(** Past the header the run is the loop and the summary. *)
Lemma main_generates (fuel : nat) (argv : list string) :
  argc_ok argv ->
  fopen_succeeds e (arg argv 1) = true ->
  RAW = true \/ 0 < device e 0%nat 16 ->
  run fuel argv
  = gen fuel (objectTypeOf argv) (headerLengthOf RAW) (stateBeforeLoop D RAW e argv).
Proof.
  intros Hargc Hopen Hhdr. unfold main.
  apply argc_test in Hargc as Htest. rewrite Htest.
  replace (Z.of_nat (List.length argv) >? 1) with true
    by (symmetry; unfold argc_ok in Hargc; rewrite Z.gtb_ltb; apply Z.ltb_lt; lia).
  rewrite Hopen. cbn [negb].
  unfold stateBeforeLoop, headerCells, headerLengthOf.
  destruct RAW; [reflexivity|].
  destruct Hhdr as [Hraw|Hdev]; [discriminate|].
  rewrite writeSetUp_fresh.
  assert (Hk : headerTaken e <> 0) by (unfold headerTaken; lia).
  apply Z.eqb_neq in Hk. rewrite Hk.
  assert (Hlen : (sizeof_int * 16 =? 0) = false) by reflexivity.
  rewrite Hlen. reflexivity.
Qed.

(** The outcomes of the loop and the summary. *)
Lemma generate_cases (fuel : nat) (objectType headerLength : Z) (st : State) (r : Result) :
  gen fuel objectType headerLength st = Some r ->
  globals r = gl st /\
  (exists data,
      file r = Some (contents (filePoiter st) ++ map DoubleCell data)) /\
  ((exit_status r = 4 /\ messages r = printed st ++ [UnableToWriteOnFile]) \/
   (exit_status r = 0 /\ messages r = printed st ++ [details e headerLength (gl st)])).
Proof.
  unfold generate. intros Hrun.
  destruct (generationLoop CAVITY_NUM CAVITY_DEN e fuel OBJ_BUFFER objectType 0 st)
    as [[c st']|] eqn:Hloop; [|discriminate].
  apply generationLoop_frame in Hloop.
  destruct Hloop as (Hgl & (data & Hdata) & [[-> Hp]|[-> Hp]]).
  - injection Hrun as <-. cbn. rewrite Hgl, Hdata, Hp.
    split; [reflexivity|]. split; [now exists data|]. right. split; reflexivity.
  - injection Hrun as <-. cbn. rewrite Hgl, Hdata, Hp.
    split; [reflexivity|]. split; [now exists data|]. left. split; reflexivity.
Qed.

End Run.

(** * The claims *)

(** ** C1: the chunked streaming loop *)



Lemma small_state_fits (K : Z) : 0 < K <= 100 -> fits (gl small_state) K.
Proof.
  intros HK. unfold fits.
  change (nVoxel (gl small_state) Axis.X) with 4.
  change (nVoxel (gl small_state) Axis.Y) with 4.
  change (nVoxel (gl small_state) Axis.Z) with 4.
  unfold CInt.INT_MAX. lia.
Defined.


Lemma perfect_env_accepts_all : accepts_all perfect_env.
Proof. intros k c. apply Z.le_refl. Defined.


(** The loop on the small grid, run: one chunk of 4 slices, 64 values. *)
Example small_grid_streamed :
  chunkPlan OBJ_BUFFER (nVoxel (gl small_state) Axis.Y) = [(0, 4)] /\
  option_map
    (fun r => (fst r, contents (filePoiter (snd r)), calls (filePoiter (snd r))))
    (generationLoop 1 2 perfect_env 1 OBJ_BUFFER 3 0 small_state)
  = Some (Finished,
          contents (filePoiter small_state) ++ map DoubleCell (repeat 1%float 64),
          2%nat).
Proof. split; vm_compute; reflexivity. Qed.

(** Slices without voxels: with [nVoxel = (0, 150, 1)] the first append
    asks for no element, [fwrite] returns [0], and the program leaves with
    status 4 after one append; nothing was to be written. *)
Example loop_stops_on_empty_slices :
  nVoxel (gl lopsided_state) Axis.X = 0 /\
  nVoxel (gl lopsided_state) Axis.Y = 150 /\
  chunkPlan OBJ_BUFFER (nVoxel (gl lopsided_state) Axis.Y) = [(0, 100); (100, 50)] /\
  (forall fuel,
      exists st',
        generationLoop 1 2 perfect_env (S fuel) OBJ_BUFFER 0 0 lopsided_state
        = Some (Exited 4, st') /\
        contents (filePoiter st') = contents (filePoiter lopsided_state) /\
        calls (filePoiter st') = S (calls (filePoiter lopsided_state))).
Proof.
  assert (Hlt : 0 < nVoxel (gl lopsided_state) Axis.Y) by reflexivity.
  assert (Htaken : chunkTaken perfect_env OBJ_BUFFER lopsided_state 0 = 0)
    by reflexivity.
  split; [reflexivity|]. split; [reflexivity|]. split; [reflexivity|].
  intros fuel. eexists. rewrite generationLoop_step by exact Hlt.
  rewrite Htaken. cbn [Z.eqb]. split; [reflexivity|].
  unfold afterChunk, print. rewrite Htaken. split; reflexivity.
Qed.

(** ** C2: chunked and unchunked generation *)




(** ** C3: the shape selector *)




(** The selector on sample command lines; [atoi] reads the leading
    numeral of a word and stops at the first other character. *)
Example objectTypeOf_samples :
  objectTypeOf ["inputgeneration"; "output.dat"]%string = 0 /\
  objectTypeOf ["inputgeneration"; "output.dat"; "1"]%string = 1 /\
  objectTypeOf ["inputgeneration"; "output.dat"; "2"]%string = 2 /\
  objectTypeOf ["inputgeneration"; "output.dat"; "3"]%string = 3 /\
  objectTypeOf ["inputgeneration"; "output.dat"; "7"]%string = 7 /\
  objectTypeOf ["inputgeneration"; "output.dat"; "-1"]%string = -1 /\
  objectTypeOf ["inputgeneration"; "output.dat"; "sphere"]%string = 0 /\
  objectTypeOf ["inputgeneration"; "output.dat"; " +2nd"]%string = 2.
Proof. repeat split. Qed.

(** ** C4: the header *)

(** C4.  A run whose header append, if any, is taken in full leaves a file
    that starts with the header and holds doubles only after it.  Built
    without -DRAW the header is the 16 fields of the list below, in that
    order, one [int] each and nothing between them: 64 bytes, written
    once, and 64 is the offset the summary reports.  Built with -DRAW
    there is no header: the doubles start at offset zero and the summary
    reports a header length of zero. *)
Theorem header_layout (D : Defaults) (RAW : bool) (CAVITY_NUM CAVITY_DEN : Z)
    (e : Env) (fuel : nat) (argv : list string) (r : Result) :
  argc_ok argv ->
  fopen_succeeds e (arg argv 1) = true ->
  (RAW = false -> 16 <= device e 0%nat 16) ->
  main D RAW CAVITY_NUM CAVITY_DEN e fuel argv = Some r ->
  let g := resolve D argv in
  let header :=
    if RAW then []
    else
      map IntCell
        [ gl_pixelDim g; gl_angularTrajectory g; gl_positionsAngularDistance g;
          gl_objectSideLenght g; gl_detectorSideLength g;
          gl_distanceObjectDetector g; gl_distanceObjectSource g;
          voxelDim g Axis.X; voxelDim g Axis.Y; voxelDim g Axis.Z;
          nVoxel g Axis.X; nVoxel g Axis.Y; nVoxel g Axis.Z;
          nPlanes g Axis.X; nPlanes g Axis.Y; nPlanes g Axis.Z ] in
  (exists data, file r = Some (header ++ map DoubleCell data)) /\
  byte_length header = (if RAW then 0 else 64) /\
  (exit_status r = 0 -> messages r = [details e (byte_length header) g]).
Proof.
  intros Hargc Hopen Hdev Hrun. cbv zeta.
  rewrite main_generates in Hrun
    by (first [ assumption
              | destruct RAW;
                [left; reflexivity | right; specialize (Hdev eq_refl); lia] ]).
  apply generate_cases in Hrun. destruct Hrun as (_ & (data & Hfile) & Hmsg).
  cbn [stateBeforeLoop filePoiter contents gl printed] in Hfile, Hmsg.
  assert (Hhdr : headerCells RAW e (resolve D argv)
                 = if RAW then []
                   else map IntCell (setUp (resolve D argv))).
  { unfold headerCells. destruct RAW; [reflexivity|].
    assert (Hk : headerTaken e = 16)
      by (unfold headerTaken; specialize (Hdev eq_refl); lia).
    rewrite Hk. reflexivity. }
  rewrite Hhdr in Hfile.
  destruct RAW.
  - split; [exists data; exact Hfile|]. split; [reflexivity|].
    intros H0. destruct Hmsg as [[H4 _]|[_ Hm]]; [congruence|]. exact Hm.
  - split; [exists data; exact Hfile|]. split; [reflexivity|].
    intros H0. destruct Hmsg as [[H4 _]|[_ Hm]]; [congruence|]. exact Hm.
Qed.

Lemma header_layout_witness :
  exists r,
    main small_defaults false 1 2 perfect_env 1 argv2 = Some r /\
    (exists data,
        file r
        = Some (map IntCell [100; 90; 15; 400; 600; 600; 2400; 100; 100; 100;
                             4; 4; 4; 5; 5; 5]
                ++ map DoubleCell data)) /\
    byte_length (map IntCell [100; 90; 15; 400; 600; 600; 2400; 100; 100; 100;
                              4; 4; 4; 5; 5; 5]) = 64 /\
    (exit_status r = 0 -> messages r = [OutputFileDetails 512 64 4 4 64 4 true]).
Proof.
  eexists. split; [vm_compute; reflexivity|].
  apply (header_layout small_defaults false 1 2 perfect_env 1 argv2).
  - unfold argc_ok. simpl. lia.
  - reflexivity.
  - intros _. simpl. lia.
  - vm_compute. reflexivity.
Defined.

(** The same run built with -DRAW: no header, and a reported offset of 0. *)
Example raw_run_has_no_header :
  main small_defaults true 1 2 perfect_env 1 argv2
  = Some (mkResult 0 [OutputFileDetails 512 64 4 4 0 4 true]
            (Some (map DoubleCell (repeat 1%float 64))) (resolve small_defaults argv2)).
Proof. vm_compute. reflexivity. Qed.

(** ** C5: the resolution from a pixel count *)



(** The conversions to [int] discard the fractional part, and the
    product is rounded as a [double] before that: with a 100000-unit
    object, 100-unit voxels and 2352 pixels per side, 735 pixels give
    31249 where the exact product is 31250, and 3 pixels give an odd
    side length, 127, whose detector distance is 190. *)
Example conversions_truncate :
  let D :=
    {| PIXEL_DIM := 85; ANGULAR_TRAJECTORY := 90; POSITIONS_ANGULAR_DISTANCE := 15;
       OBJECT_SIDE_LENGTH := 100000; DETECTOR_SIDE_LENGTH := 200000;
       DISTANCE_OBJECT_DETECTOR := 150000; DISTANCE_OBJECT_SOURCE := 600000;
       VOXEL_X_DIM := 100; VOXEL_Y_DIM := 100; VOXEL_Z_DIM := 100;
       N_VOXEL_X := 1000; N_VOXEL_Y := 1000; N_VOXEL_Z := 1000;
       N_PLANES_X := 1001; N_PLANES_Y := 1001; N_PLANES_Z := 1001 |} in
  N_PIXEL_ALONG_SIDE D = 2352 /\
  gl_objectSideLenght
    (resolve D ["inputgeneration"; "output.dat"; "2"; "735"]%string) = 31249 /\
  Z.quot (735 * 100 * 100000) (100 * 2352) = 31250 /\
  gl_objectSideLenght
    (resolve D ["inputgeneration"; "output.dat"; "2"; "3"]%string) = 127 /\
  gl_distanceObjectDetector
    (resolve D ["inputgeneration"; "output.dat"; "2"; "3"]%string) = 190.
Proof. vm_compute. repeat split. Qed.

(** ** C6: the voxel and plane counts *)

Lemma writeSetUp_globals (e : Env) (st : State) : gl (snd (writeSetUp e st)) = gl st.
Proof.
  unfold writeSetUp, fwrite. cbv zeta.
  match goal with |- context [if ?b then _ else _] => destruct b end; reflexivity.
Qed.

(** [int] division is the truncating quotient when it does not overflow,
    and adding one is the successor below [INT_MAX]. *)
Lemma int_div_quot (a b : Z) :
  CInt.INT_MIN <= a < CInt.INT_MAX -> 0 < b ->
  CInt.div a b = Z.quot a b /\ CInt.add (Z.quot a b) 1 = Z.quot a b + 1.
Proof.
  intros Ha Hb. unfold CInt.INT_MIN, CInt.INT_MAX in Ha.
  assert (Hq : -2147483648 <= Z.quot a b < 2147483647).
  { destruct (Z.le_gt_cases 0 a) as [Hpos|Hneg].
    - pose proof (Z.quot_pos a b Hpos Hb).
      assert (Z.quot a b <= a) by (apply Z.quot_le_upper_bound; nia). lia.
    - assert (Hopp : Z.quot a b = - Z.quot (- a) b)
        by (rewrite Z.quot_opp_l by lia; lia).
      pose proof (Z.quot_pos (- a) b ltac:(lia) Hb).
      assert (Z.quot (- a) b <= - a) by (apply Z.quot_le_upper_bound; nia). lia. }
  unfold CInt.div, CInt.add.
  rewrite !wrap_in_range
    by (unfold CInt.in_range, CInt.INT_MIN, CInt.INT_MAX; lia).
  split; reflexivity.
Qed.

Lemma computeGridCounts_spec (g : Globals) (k : Axis.t) :
  let g' := computeGridCounts g in
  gl_objectSideLenght g' = gl_objectSideLenght g /\
  voxelDim g' k = voxelDim g k /\
  nVoxel g' k = CInt.div (gl_objectSideLenght g) (voxelDim g k) /\
  nPlanes g' k = CInt.add (CInt.div (gl_objectSideLenght g) (voxelDim g k)) 1.
Proof. destruct g, k; repeat split. Qed.

(** C6.  After the resolution, with or without a pixel count, each
    [nVoxel[i]] is the [int] quotient [objectSideLength / voxelDim[i]] and
    each [nPlanes[i]] is [nVoxel[i] + 1] (the truncating quotient and its
    successor whenever these do not overflow); neither [writeSetUp] nor
    the generation loop changes a global, and the globals at the end of
    every run that got past the argument check are the resolved ones. *)
Theorem grid_counts_invariant :
  (forall (D : Defaults) (argv : list string) (k : Axis.t),
      let g := resolve D argv in
      nVoxel g k = CInt.div (gl_objectSideLenght g) (voxelDim g k) /\
      nPlanes g k = CInt.add (nVoxel g k) 1 /\
      (CInt.INT_MIN <= gl_objectSideLenght g < CInt.INT_MAX ->
       0 < voxelDim g k ->
       nVoxel g k = Z.quot (gl_objectSideLenght g) (voxelDim g k) /\
       nPlanes g k = nVoxel g k + 1)) /\
  (forall (e : Env) (st : State), gl (snd (writeSetUp e st)) = gl st) /\
  (forall CAVITY_NUM CAVITY_DEN e fuel K objectType slice st c st',
      generationLoop CAVITY_NUM CAVITY_DEN e fuel K objectType slice st = Some (c, st') ->
      gl st' = gl st) /\
  (forall D RAW CAVITY_NUM CAVITY_DEN e fuel argv r,
      argc_ok argv ->
      main D RAW CAVITY_NUM CAVITY_DEN e fuel argv = Some r ->
      globals r = resolve D argv).
Proof.
  refine (conj _ (conj writeSetUp_globals (conj _ _))).
  - intros D argv k. cbv zeta.
    assert (Hdef : nVoxel (resolve D argv) k
                   = CInt.div (gl_objectSideLenght (resolve D argv))
                       (voxelDim (resolve D argv) k)
                   /\ nPlanes (resolve D argv) k
                      = CInt.add (nVoxel (resolve D argv) k) 1).
    { unfold resolve.
      match goal with
      | |- context [computeGridCounts ?g1] =>
          destruct (computeGridCounts_spec g1 k) as (HL & HD & HV & HP)
      end.
      rewrite HV, HP, HL, HD. split; reflexivity. }
    destruct Hdef as [Hv Hp]. split; [exact Hv|]. split; [exact Hp|].
    intros Hrange Hdim.
    destruct (int_div_quot _ _ Hrange Hdim) as [Hq Hs].
    rewrite Hp, Hv, Hq, Hs. split; reflexivity.
  - intros CAVITY_NUM CAVITY_DEN e fuel K objectType slice st c st' Hrun.
    apply generationLoop_frame in Hrun. tauto.
  - intros D RAW CAVITY_NUM CAVITY_DEN e fuel argv r Hargc Hrun.
    destruct (fopen_succeeds e (arg argv 1)) eqn:Hopen.
    + destruct RAW eqn:HRAW.
      * rewrite main_generates in Hrun by auto.
        apply generate_cases in Hrun. tauto.
      * destruct (Z.lt_ge_cases 0 (device e 0%nat 16)) as [Hdev|Hdev].
        -- rewrite main_generates in Hrun by auto.
           apply generate_cases in Hrun. tauto.
        -- rewrite main_header_fails in Hrun by auto.
           injection Hrun as <-. reflexivity.
    + rewrite main_fopen_fails in Hrun by auto.
      injection Hrun as <-. reflexivity.
Qed.

(** ** Two runs on devices that behave alike *)

Section TwoRuns.

Variables CAVITY_NUM CAVITY_DEN : Z.
Variables e1 e2 : Env.
Variables K objectType : Z.
Variable g : Globals.

Hypothesis Hfits : fits g K.
Hypothesis Hdev : forall k c, device e1 k c = device e2 k c.



End TwoRuns.

(** ** C7: short writes of a data chunk *)

(** The loop stops exactly when an append takes no element at all. *)
Lemma generationLoop_continues (CAVITY_NUM CAVITY_DEN : Z) (e : Env) (fuel : nat)
    (K objectType slice : Z) (st : State) :
  slice < nVoxel (gl st) Axis.Y ->
  chunkTaken e K st slice <> 0 ->
  generationLoop CAVITY_NUM CAVITY_DEN e (S fuel) K objectType slice st
  = generationLoop CAVITY_NUM CAVITY_DEN e fuel K objectType (CInt.add slice K)
      (afterChunk CAVITY_NUM CAVITY_DEN e K objectType st slice).
Proof.
  intros Hlt Hk. rewrite generationLoop_step by exact Hlt.
  apply Z.eqb_neq in Hk. rewrite Hk. reflexivity.
Qed.

(** C7, on the code.  The solid cube on the small grid, written to a device
    that takes 63 of the 64 values of the only chunk: the short write goes
    unnoticed, the file holds the header and 63 values, and the run ends
    with status 0 and the summary of a 512-byte model. *)
Example short_write_reported_as_success :
  chunkCount OBJ_BUFFER (resolve small_defaults argv_cube) 0 = 64 /\
  chunkTaken short_env OBJ_BUFFER
    (stateBeforeLoop small_defaults false short_env argv_cube) 0 = 63 /\
  main small_defaults false 1 2 short_env 1 argv_cube
  = Some (mkResult 0 [OutputFileDetails 512 64 4 4 64 4 true]
            (Some (map IntCell (setUp (resolve small_defaults argv_cube))
                   ++ map DoubleCell (repeat 1%float 63)))
            (resolve small_defaults argv_cube)).
Proof. vm_compute. repeat split. Qed.

(** ** C8: degenerate configurations *)

Section Degenerate.

Variable D : Defaults.
Variable RAW : bool.
Variables CAVITY_NUM CAVITY_DEN : Z.
Variable e : Env.
Variable argv : list string.

Hypothesis Hargc : argc_ok argv.
Hypothesis Hopen : fopen_succeeds e (arg argv 1) = true.
Hypothesis Hheader : RAW = true \/ 0 < device e 0%nat 16.

(** Without slices the loop body never runs. *)
Lemma main_without_slices (fuel : nat) :
  nVoxel (resolve D argv) Axis.Y <= 0 ->
  main D RAW CAVITY_NUM CAVITY_DEN e fuel argv
  = Some (mkResult 0 [details e (headerLengthOf RAW) (resolve D argv)]
            (Some (headerCells RAW e (resolve D argv))) (resolve D argv)).
Proof.
  intros HY. rewrite main_generates by assumption.
  unfold generate. rewrite generationLoop_done by exact HY. reflexivity.
Qed.

(** With slices that hold no voxel the first append takes nothing. *)
Lemma main_with_empty_slices (fuel : nat) :
  0 < nVoxel (resolve D argv) Axis.Y ->
  nVoxel (resolve D argv) Axis.X = 0 \/ nVoxel (resolve D argv) Axis.Z = 0 ->
  main D RAW CAVITY_NUM CAVITY_DEN e (S fuel) argv
  = Some (mkResult 4 [UnableToWriteOnFile]
            (Some (headerCells RAW e (resolve D argv))) (resolve D argv)).
Proof.
  intros HY Hempty. rewrite main_generates by assumption.
  unfold generate. rewrite generationLoop_step by exact HY.
  assert (Hcount : chunkCount OBJ_BUFFER (resolve D argv) 0 = 0).
  { unfold chunkCount, CInt.mul.
    replace (nVoxel (resolve D argv) Axis.X * nVoxel (resolve D argv) Axis.Z) with 0
      by (destruct Hempty as [-> | ->]; lia).
    reflexivity. }
  assert (Htaken :
            chunkTaken e OBJ_BUFFER (stateBeforeLoop D RAW e argv) 0 = 0).
  { unfold chunkTaken. cbn [stateBeforeLoop gl]. rewrite Hcount. lia. }
  rewrite Htaken. cbn [Z.eqb].
  unfold afterChunk, print. rewrite Htaken.
  cbn [seq Z.to_nat map gl filePoiter contents printed stateBeforeLoop app].
  rewrite app_nil_r. reflexivity.
Qed.

End Degenerate.

(** C8 as stated fails: with a pixel count of 0 every voxel count is 0, and
    the run writes the header, skips the loop, prints the summary and ends
    with status 0. *)
Lemma degenerate_run_reports_success :
  (forall k, nVoxel (resolve small_defaults argv_zero) k = 0) /\
  (forall fuel,
      main small_defaults false 1 2 perfect_env fuel argv_zero
      = Some (mkResult 0 [OutputFileDetails 0 64 0 0 64 0 true]
                (Some (map IntCell [100; 90; 15; 0; 0; 0; 0; 100; 100; 100;
                                    0; 0; 0; 1; 1; 1]))
                (resolve small_defaults argv_zero))).
Proof.
  split.
  - intros []; vm_compute; reflexivity.
  - intros fuel.
    rewrite (main_without_slices small_defaults false 1 2 perfect_env argv_zero).
    + vm_compute. reflexivity.
    + unfold argc_ok. simpl. lia.
    + reflexivity.
    + right. simpl. lia.
    + vm_compute. discriminate.
Qed.

(** C8, as amended.  For a command line that passes the argument check,
    once the file is open and the header written: when the resolved
    [nVoxel[Y]] is not positive no density value is written and the run
    ends with the summary and status 0; when [nVoxel[Y]] is positive and
    [nVoxel[X]] or [nVoxel[Z]] is 0, the first append takes nothing and
    the run ends with the message and status 4, no density value
    written. *)
Theorem degenerate_grid_outcome (D : Defaults) (RAW : bool)
    (CAVITY_NUM CAVITY_DEN : Z) (e : Env) (argv : list string) :
  argc_ok argv ->
  fopen_succeeds e (arg argv 1) = true ->
  RAW = true \/ 0 < device e 0%nat 16 ->
  let g := resolve D argv in
  (nVoxel g Axis.Y <= 0 ->
   forall fuel,
     main D RAW CAVITY_NUM CAVITY_DEN e fuel argv
     = Some (mkResult 0 [details e (headerLengthOf RAW) g]
               (Some (headerCells RAW e g)) g)) /\
  (0 < nVoxel g Axis.Y ->
   nVoxel g Axis.X = 0 \/ nVoxel g Axis.Z = 0 ->
   forall fuel,
     main D RAW CAVITY_NUM CAVITY_DEN e (S fuel) argv
     = Some (mkResult 4 [UnableToWriteOnFile] (Some (headerCells RAW e g)) g)).
Proof.
  intros Hargc Hopen Hheader. cbv zeta. split.
  - intros HY fuel. now apply main_without_slices.
  - intros HY Hempty fuel. now apply main_with_empty_slices.
Qed.

Lemma degenerate_grid_outcome_witness :
  main small_defaults false 1 2 perfect_env 0 argv_negative
  = Some (mkResult 0
            [details perfect_env (headerLengthOf false)
               (resolve small_defaults argv_negative)]
            (Some (headerCells false perfect_env (resolve small_defaults argv_negative)))
            (resolve small_defaults argv_negative)) /\
  main lopsided_defaults false 1 2 perfect_env 1 argv2
  = Some (mkResult 4 [UnableToWriteOnFile]
            (Some (headerCells false perfect_env (resolve lopsided_defaults argv2)))
            (resolve lopsided_defaults argv2)).
Proof.
  split.
  - apply (proj1 (degenerate_grid_outcome small_defaults false 1 2 perfect_env
                    argv_negative
                    ltac:(unfold argc_ok; simpl; lia) eq_refl
                    ltac:(right; simpl; lia))).
    vm_compute. discriminate.
  - apply (proj2 (degenerate_grid_outcome lopsided_defaults false 1 2 perfect_env
                    argv2
                    ltac:(unfold argc_ok; simpl; lia) eq_refl
                    ltac:(right; simpl; lia))).
    + vm_compute. reflexivity.
    + left. vm_compute. reflexivity.
Defined.

(** ** C9: the failures the program reports *)



(** The four failures on sample runs. *)
Example detected_failures_samples :
  main small_defaults false 1 2 perfect_env 1 ["inputgeneration"]%string
  = Some (mkResult 1 [Usage "inputgeneration"] None (initial_globals small_defaults)) /\
  main small_defaults false 1 2
    (mkEnv (fun _ => false) (fun _ c => c) (fun _ => 0%float) true) 1 argv2
  = Some (mkResult 2 [UnableToOpenFile] None (resolve small_defaults argv2)) /\
  main small_defaults false 1 2
    (mkEnv (fun _ => true) (fun _ _ => 0) (fun _ => 0%float) true) 1 argv2
  = Some (mkResult 3 [UnableToWriteOnFile] (Some []) (resolve small_defaults argv2)) /\
  main small_defaults false 1 2
    (mkEnv (fun _ => true) (fun k c => if Nat.eqb k 0 then c else 0)
       (fun _ => 0%float) true) 1 argv2
  = Some (mkResult 4 [UnableToWriteOnFile]
            (Some (map IntCell (setUp (resolve small_defaults argv2))))
            (resolve small_defaults argv2)).
Proof. vm_compute. repeat split. Qed.

(** ** C10: the output as a function of the arguments *)



(** * Further properties of the code *)

(** ** Sizes in bytes *)


Lemma byte_length_ints (l : list Z) :
  byte_length (map IntCell l) = sizeof_int * Z.of_nat (List.length l).
Proof.
  unfold byte_length, sizeof_int.
  induction l as [|v l IH]; [reflexivity|].
  cbn [map fold_right cell_size List.length]. rewrite IH. unfold sizeof_int. lia.
Qed.


(** ** X1: the file of any run, whatever the device does *)

(** X1.  For every run that opened its file, whatever the device takes
    and whatever the configuration: the file is the first [k] fields of
    the header, [k] the number of fields the device took of the 16 (no
    field at all when built with -DRAW), followed by doubles only.  The
    run stops with status 3 exactly when the header append took no field;
    a header cut short to 1..15 fields is not noticed, and a run that then
    succeeds still reports a header of 64 bytes while the data start at
    byte [4 * k]. *)
Theorem file_shape_any_device (D : Defaults) (RAW : bool) (CAVITY_NUM CAVITY_DEN : Z)
    (e : Env) (fuel : nat) (argv : list string) (r : Result) :
  argc_ok argv ->
  fopen_succeeds e (arg argv 1) = true ->
  main D RAW CAVITY_NUM CAVITY_DEN e fuel argv = Some r ->
  let g := resolve D argv in
  let k := Z.max 0 (Z.min 16 (device e 0%nat 16)) in
  let header := if RAW then [] else map IntCell (firstn (Z.to_nat k) (setUp g)) in
  (exists data, file r = Some (header ++ map DoubleCell data)) /\
  byte_length header = (if RAW then 0 else 4 * k) /\
  (exit_status r = 3 <-> RAW = false /\ k = 0) /\
  (exit_status r = 0 ->
   messages r = [details e (if RAW then 0 else 64) g]).
Proof.
  intros Hargc Hopen Hrun. cbv zeta.
  fold (headerTaken e). fold (headerCells RAW e (resolve D argv)).
  assert (Hk : 0 <= headerTaken e <= 16) by (unfold headerTaken; lia).
  assert (Hbytes : byte_length (headerCells RAW e (resolve D argv))
                   = if RAW then 0 else 4 * headerTaken e).
  { unfold headerCells. destruct RAW; [reflexivity|].
    rewrite byte_length_ints, length_firstn.
    change (List.length (setUp (resolve D argv))) with 16%nat.
    unfold sizeof_int. lia. }
  assert (Hcases : (RAW = true \/ 0 < device e 0%nat 16)
                   \/ (RAW = false /\ device e 0%nat 16 <= 0))
    by (destruct RAW; [left; left; reflexivity | lia]).
  destruct Hcases as [Hhdr|[Hraw Hdev]].
  - rewrite main_generates in Hrun by assumption.
    apply generate_cases in Hrun.
    destruct Hrun as (_ & (data & Hfile) & Hmsg).
    cbn [stateBeforeLoop filePoiter contents gl printed app] in Hfile, Hmsg.
    split; [exists data; exact Hfile|]. split; [exact Hbytes|]. split.
    + split.
      * intros H3. destruct Hmsg as [[H4 _]|[H0 _]]; congruence.
      * intros [Hraw Hzero]. destruct Hhdr as [Ht|Hpos]; [congruence|].
        unfold headerTaken in Hzero. lia.
    + intros H0. destruct Hmsg as [[H4 _]|[_ Hm]]; [congruence|].
      unfold headerLengthOf in Hm. exact Hm.
  - rewrite main_header_fails in Hrun by assumption.
    injection Hrun as <-. cbn [file exit_status messages].
    assert (Hzero : headerTaken e = 0) by (unfold headerTaken; lia).
    split.
    + exists []. unfold headerCells. rewrite Hraw, Hzero. reflexivity.
    + split; [exact Hbytes|]. split; [|discriminate].
      split; [intros _; split; assumption | reflexivity].
Qed.

Lemma file_shape_any_device_witness :
  exists r,
    main small_defaults false 1 2 short_header_env 1 argv_cube = Some r /\
    (exists data,
        file r = Some (map IntCell [100; 90; 15; 400; 600] ++ map DoubleCell data)) /\
    byte_length (map IntCell [100; 90; 15; 400; 600]) = 20 /\
    (exit_status r = 3 <-> false = false /\ 5 = 0) /\
    (exit_status r = 0 ->
     messages r = [OutputFileDetails 512 64 4 4 64 4 true]).
Proof.
  eexists. split; [vm_compute; reflexivity|].
  apply (file_shape_any_device small_defaults false 1 2 short_header_env 1 argv_cube).
  - unfold argc_ok. simpl. lia.
  - reflexivity.
  - vm_compute. reflexivity.
Defined.

(** ** X2, X3: a run that succeeds *)

Section Success.

Variable D : Defaults.
Variable RAW : bool.
Variables CAVITY_NUM CAVITY_DEN : Z.
Variable e : Env.
Variable argv : list string.

Hypothesis Hargc : argc_ok argv.
Hypothesis Hopen : fopen_succeeds e (arg argv 1) = true.
Hypothesis Hvalid : valid_grid (resolve D argv).
Hypothesis Hfits : fits (resolve D argv) OBJ_BUFFER.
Hypothesis Hdev : accepts_all e.

Lemma main_succeeds (fuel : nat) :
  nVoxel (resolve D argv) Axis.Y <= OBJ_BUFFER * Z.of_nat fuel ->
  main D RAW CAVITY_NUM CAVITY_DEN e fuel argv
  = Some (mkResult 0
            [details e (headerLengthOf RAW) (resolve D argv)]
            (Some ((if RAW then [] else map IntCell (setUp (resolve D argv)))
                   ++ map DoubleCell
                        (layers (resolve D argv)
                           (density_of CAVITY_NUM CAVITY_DEN (objectTypeOf argv)
                              (resolve D argv))
                           0 (Z.to_nat (nVoxel (resolve D argv) Axis.Y)))))
            (resolve D argv)).
Proof.
  intros Hfuel. destruct Hvalid as (HX & HY & HZ).
  pose proof (Hdev 0%nat 16) as H16.
  rewrite main_generates by (auto; right; lia).
  unfold generate.
  destruct (generationLoop_streams CAVITY_NUM CAVITY_DEN e OBJ_BUFFER
              (objectTypeOf argv) (resolve D argv) Hfits HX HZ Hdev fuel 0
              (stateBeforeLoop D RAW e argv) eq_refl)
    as (st' & Hrun & Hg & Hc & _ & Hp); [lia | lia |].
  rewrite Hrun. cbn [print printed gl filePoiter].
  rewrite Hg, Hc, Hp, Z.sub_0_r.
  cbn [stateBeforeLoop filePoiter contents printed app].
  assert (Hhdr : headerCells RAW e (resolve D argv)
                 = if RAW then [] else map IntCell (setUp (resolve D argv))).
  { unfold headerCells. destruct RAW; [reflexivity|].
    assert (Hk : headerTaken e = 16) by (unfold headerTaken; lia).
    rewrite Hk. reflexivity. }
  rewrite Hhdr. reflexivity.
Qed.


End Success.

(** X2.  A run on a command line of 2 to 4 words whose file opens, on a
    device that takes everything, for a grid with three positive voxel
    counts within the range of [int]: with enough fuel for its
    [nVoxel[Y] / 100] iterations, [main] ends with status 0, prints the
    summary only, and leaves a file made of the 16 header fields (none
    with -DRAW) followed by the whole grid, slice after slice, from the
    generator its selector chooses. *)
Theorem successful_run (D : Defaults) (RAW : bool) (CAVITY_NUM CAVITY_DEN : Z)
    (e : Env) (argv : list string) (fuel : nat) :
  argc_ok argv ->
  fopen_succeeds e (arg argv 1) = true ->
  valid_grid (resolve D argv) ->
  fits (resolve D argv) OBJ_BUFFER ->
  accepts_all e ->
  nVoxel (resolve D argv) Axis.Y <= OBJ_BUFFER * Z.of_nat fuel ->
  let g := resolve D argv in
  main D RAW CAVITY_NUM CAVITY_DEN e fuel argv
  = Some (mkResult 0
            [details e (if RAW then 0 else 64) g]
            (Some ((if RAW then [] else map IntCell (setUp g))
                   ++ map DoubleCell
                        (layers g
                           (density_of CAVITY_NUM CAVITY_DEN (objectTypeOf argv) g)
                           0 (Z.to_nat (nVoxel g Axis.Y)))))
            g).
Proof.
  intros Hargc Hopen Hvalid Hfits Hdev Hfuel. cbv zeta.
  now apply main_succeeds.
Qed.

Lemma small_run_hypotheses :
  argc_ok argv_cube /\
  valid_grid (resolve small_defaults argv_cube) /\
  fits (resolve small_defaults argv_cube) OBJ_BUFFER.
Proof.
  split; [unfold argc_ok; simpl; lia|]. split.
  - unfold valid_grid. repeat split.
  - unfold fits, OBJ_BUFFER.
    change (nVoxel (resolve small_defaults argv_cube) Axis.X) with 4.
    change (nVoxel (resolve small_defaults argv_cube) Axis.Y) with 4.
    change (nVoxel (resolve small_defaults argv_cube) Axis.Z) with 4.
    unfold CInt.INT_MAX. lia.
Defined.

Lemma successful_run_witness :
  main small_defaults false 1 2 perfect_env 1 argv_cube
  = Some (mkResult 0
            [details perfect_env 64 (resolve small_defaults argv_cube)]
            (Some (map IntCell (setUp (resolve small_defaults argv_cube))
                   ++ map DoubleCell
                        (layers (resolve small_defaults argv_cube)
                           (density_of 1 2 (objectTypeOf argv_cube)
                              (resolve small_defaults argv_cube))
                           0 (Z.to_nat
                                (nVoxel (resolve small_defaults argv_cube) Axis.Y)))))
            (resolve small_defaults argv_cube)).
Proof.
  apply (successful_run small_defaults false 1 2 perfect_env argv_cube 1).
  - exact (proj1 small_run_hypotheses).
  - reflexivity.
  - exact (proj1 (proj2 small_run_hypotheses)).
  - exact (proj2 (proj2 small_run_hypotheses)).
  - exact perfect_env_accepts_all.
  - vm_compute. discriminate.
Defined.



(** ** X4: the loop on any device *)

Section AnyDevice.

Variables CAVITY_NUM CAVITY_DEN : Z.
Variable e : Env.
Variables K objectType : Z.
Variable g : Globals.

Hypothesis Hfits : fits g K.

Local Abbreviation loop := (generationLoop CAVITY_NUM CAVITY_DEN e).
Local Abbreviation d := (density_of CAVITY_NUM CAVITY_DEN objectType g).

(** What one iteration appends is a prefix of the values of its chunk. *)
Lemma afterChunk_prefix (st : State) (slice : Z) :
  gl st = g ->
  0 <= slice < nVoxel g Axis.Y ->
  let chunk := layers g d slice (Z.to_nat (Z.min K (nVoxel g Axis.Y - slice))) in
  (Z.to_nat (chunkTaken e K st slice) <= List.length chunk)%nat /\
  contents (filePoiter (afterChunk CAVITY_NUM CAVITY_DEN e K objectType st slice))
  = contents (filePoiter st)
    ++ map DoubleCell (firstn (Z.to_nat (chunkTaken e K st slice)) chunk).
Proof.
  intros Hg Hs. cbv zeta.
  assert (Hlen : (Z.to_nat (chunkTaken e K st slice)
                  <= List.length
                       (layers g d slice
                          (Z.to_nat (Z.min K (nVoxel g Axis.Y - slice)))))%nat).
  { rewrite layers_length.
    assert (Hle : chunkTaken e K st slice <= chunkCount K g slice).
    { unfold chunkTaken. rewrite Hg.
      pose proof (chunkCount_product K g Hfits slice Hs) as Hc.
      destruct Hfits as (HX & HZ & HK & _).
      assert (0 <= chunkCount K g slice) by (rewrite Hc; nia). lia. }
    rewrite (chunkCount_product K g Hfits slice Hs) in Hle.
    destruct Hfits as (HX & HZ & HK & _). nia. }
  split; [exact Hlen|].
  unfold afterChunk. cbn [filePoiter contents].
  rewrite Hg, (chunkSlices_min K g Hfits slice Hs).
  rewrite store_read_cells by exact Hlen. reflexivity.
Qed.

Lemma generationLoop_bounded :
  forall (fuel : nat) (slice : Z) (st : State),
    gl st = g ->
    0 <= slice ->
    nVoxel g Axis.Y - slice <= K * Z.of_nat fuel ->
    exists c st' data,
      loop fuel K objectType slice st = Some (c, st') /\
      contents (filePoiter st') = contents (filePoiter st) ++ map DoubleCell data /\
      (List.length data
       <= List.length (layers g d slice (Z.to_nat (nVoxel g Axis.Y - slice))))%nat /\
      (List.length data
       = List.length (layers g d slice (Z.to_nat (nVoxel g Axis.Y - slice))) ->
       data = layers g d slice (Z.to_nat (nVoxel g Axis.Y - slice))).
Proof.
  pose proof Hfits as (_ & _ & HK & _ & HY).
  assert (Hdone : forall fuel slice st,
             gl st = g -> nVoxel g Axis.Y <= slice ->
             exists c st' data,
               loop fuel K objectType slice st = Some (c, st') /\
               contents (filePoiter st')
               = contents (filePoiter st) ++ map DoubleCell data /\
               (List.length data
                <= List.length
                     (layers g d slice (Z.to_nat (nVoxel g Axis.Y - slice))))%nat /\
               (List.length data
                = List.length (layers g d slice (Z.to_nat (nVoxel g Axis.Y - slice))) ->
                data = layers g d slice (Z.to_nat (nVoxel g Axis.Y - slice)))).
  { intros fuel slice st Hg Hge.
    exists Finished, st, [].
    rewrite generationLoop_done by (rewrite Hg; lia).
    replace (Z.to_nat (nVoxel g Axis.Y - slice)) with 0%nat by lia.
    simpl. rewrite app_nil_r. auto. }
  induction fuel as [|fuel IH]; intros slice st Hg Hs Hfuel.
  - apply Hdone; [exact Hg | lia].
  - destruct (Z.lt_ge_cases slice (nVoxel g Axis.Y)) as [Hlt|Hge];
      [|apply Hdone; assumption].
    rewrite generationLoop_step by (rewrite Hg; lia).
    destruct (afterChunk_prefix st slice Hg (conj Hs Hlt)) as [Hlen Hcells].
    set (chunk := layers g d slice (Z.to_nat (Z.min K (nVoxel g Axis.Y - slice))))
      in *.
    set (taken := chunkTaken e K st slice) in *.
    assert (Hsplit : layers g d slice (Z.to_nat (nVoxel g Axis.Y - slice))
                     = chunk
                       ++ layers g d (slice + K)
                            (Z.to_nat (nVoxel g Axis.Y - (slice + K)))).
    { unfold chunk.
      replace (Z.to_nat (nVoxel g Axis.Y - slice))
        with (Z.to_nat (Z.min K (nVoxel g Axis.Y - slice))
              + Z.to_nat (nVoxel g Axis.Y - (slice + K)))%nat by lia.
      rewrite layers_app. f_equal.
      destruct (Z.le_gt_cases K (nVoxel g Axis.Y - slice)) as [Hfull|Hlast].
      - f_equal. lia.
      - replace (Z.to_nat (nVoxel g Axis.Y - (slice + K))) with 0%nat by lia.
        reflexivity. }
    rewrite Hsplit, length_app.
    destruct (Z.eqb_spec taken 0) as [Hzero|Hnz].
    + exists (Exited 4),
        (print UnableToWriteOnFile
           (afterChunk CAVITY_NUM CAVITY_DEN e K objectType st slice)), [].
      split; [reflexivity|]. split.
      * cbn [print filePoiter]. rewrite Hcells, Hzero. reflexivity.
      * cbn [List.length]. split; [lia|]. intros Hall.
        symmetry. apply length_zero_iff_nil. rewrite length_app. lia.
    + set (st1 := afterChunk CAVITY_NUM CAVITY_DEN e K objectType st slice) in *.
      assert (Hg1 : gl st1 = g) by (unfold st1, afterChunk; simpl; exact Hg).
      unfold CInt.add.
      rewrite wrap_in_range
        by (unfold CInt.in_range, CInt.INT_MIN, CInt.INT_MAX in *; lia).
      destruct (IH (slice + K) st1 Hg1) as (c & st' & data & Hrun & Hc & Hle & Heq);
        [lia | lia |].
      exists c, st', (firstn (Z.to_nat taken) chunk ++ data).
      split; [exact Hrun|]. split.
      * rewrite Hc, Hcells, <- app_assoc, <- map_app. reflexivity.
      * pose proof (firstn_le_length (Z.to_nat taken) chunk) as Hf.
        rewrite length_app. split; [lia|].
        intros Hall.
        assert (Hft : List.length (firstn (Z.to_nat taken) chunk) = List.length chunk)
          by lia.
        assert (Hdl : List.length data
                      = List.length
                          (layers g d (slice + K)
                             (Z.to_nat (nVoxel g Axis.Y - (slice + K)))))
          by lia.
        rewrite (Heq Hdl). f_equal.
        rewrite length_firstn in Hft.
        rewrite <- (firstn_all chunk) at 2.
        f_equal. lia.
Qed.

End AnyDevice.

(** X4.  Whatever the device takes of each append (configuration within
    the range of [int]), the loop of [main] terminates within
    [nVoxel[Y]] iterations, never appends more values than the
    [nVoxel[X] * nVoxel[Y] * nVoxel[Z]] of the grid (none when
    [nVoxel[Y]] is not positive), and if it has appended as many they are
    the grid itself, slice after slice: a file of full length is a
    complete file. *)
Theorem full_length_means_complete (CAVITY_NUM CAVITY_DEN : Z) (e : Env)
    (objectType : Z) (st : State) :
  fits (gl st) OBJ_BUFFER ->
  let g := gl st in
  let whole :=
    layers g (density_of CAVITY_NUM CAVITY_DEN objectType g) 0
      (Z.to_nat (nVoxel g Axis.Y)) in
  exists c st' data,
    generationLoop CAVITY_NUM CAVITY_DEN e (Z.to_nat (nVoxel g Axis.Y))
      OBJ_BUFFER objectType 0 st = Some (c, st') /\
    contents (filePoiter st') = contents (filePoiter st) ++ map DoubleCell data /\
    (List.length data <= List.length whole)%nat /\
    Z.of_nat (List.length whole)
    = nVoxel g Axis.X * Z.max 0 (nVoxel g Axis.Y) * nVoxel g Axis.Z /\
    (List.length data = List.length whole -> data = whole).
Proof.
  intros Hfits. cbv zeta.
  destruct (generationLoop_bounded CAVITY_NUM CAVITY_DEN e OBJ_BUFFER objectType
              (gl st) Hfits (Z.to_nat (nVoxel (gl st) Axis.Y)) 0 st eq_refl)
    as (c & st' & data & Hrun & Hc & Hle & Heq);
    [lia | unfold OBJ_BUFFER; lia |].
  rewrite Z.sub_0_r in Hle, Heq.
  exists c, st', data.
  split; [exact Hrun|]. split; [exact Hc|]. split; [exact Hle|].
  split; [|exact Heq].
  rewrite layers_length, !Nat2Z.inj_mul. destruct Hfits as (HX & HZ & _).
  rewrite (Z2Nat.id (nVoxel (gl st) Axis.X)), (Z2Nat.id (nVoxel (gl st) Axis.Z))
    by assumption.
  destruct (Z.le_gt_cases (nVoxel (gl st) Axis.Y) 0).
  - rewrite Z.max_l by lia.
    replace (Z.to_nat (nVoxel (gl st) Axis.Y)) with 0%nat by lia. simpl. lia.
  - rewrite Z.max_r, Z2Nat.id by lia. lia.
Qed.

Lemma full_length_means_complete_witness :
  let g := gl small_state in
  let whole := layers g (density_of 1 2 2 g) 0 (Z.to_nat (nVoxel g Axis.Y)) in
  exists c st' data,
    generationLoop 1 2 short_env (Z.to_nat (nVoxel g Axis.Y)) OBJ_BUFFER 2 0 small_state
    = Some (c, st') /\
    contents (filePoiter st') = contents (filePoiter small_state) ++ map DoubleCell data /\
    (List.length data <= List.length whole)%nat /\
    Z.of_nat (List.length whole)
    = nVoxel g Axis.X * Z.max 0 (nVoxel g Axis.Y) * nVoxel g Axis.Z /\
    (List.length data = List.length whole -> data = whole).
Proof.
  apply (full_length_means_complete 1 2 short_env 2 small_state).
  apply small_state_fits. unfold OBJ_BUFFER. lia.
Defined.

(** ** X5: a device that stops taking data *)

Section Refusal.

Variables CAVITY_NUM CAVITY_DEN : Z.
Variable e : Env.
Variables K objectType : Z.
Variable g : Globals.

Hypothesis Hfits : fits g K.
Hypothesis HX : 0 < nVoxel g Axis.X.
Hypothesis HZ : 0 < nVoxel g Axis.Z.

Local Abbreviation loop := (generationLoop CAVITY_NUM CAVITY_DEN e).
Local Abbreviation d := (density_of CAVITY_NUM CAVITY_DEN objectType g).

Lemma generationLoop_refused :
  forall (j f : nat) (slice : Z) (st : State),
    gl st = g ->
    0 <= slice ->
    slice + K * Z.of_nat j < nVoxel g Axis.Y ->
    (forall i c, (i < j)%nat -> c <= device e (calls (filePoiter st) + i)%nat c) ->
    (forall c, device e (calls (filePoiter st) + j)%nat c <= 0) ->
    exists st',
      loop (S j + f) K objectType slice st = Some (Exited 4, st') /\
      gl st' = g /\
      contents (filePoiter st')
      = contents (filePoiter st)
        ++ map DoubleCell (layers g d slice (Z.to_nat (K * Z.of_nat j))) /\
      calls (filePoiter st') = (calls (filePoiter st) + S j)%nat /\
      printed st' = printed st ++ [UnableToWriteOnFile].
Proof.
  pose proof Hfits as (_ & _ & HK & _ & HY).
  induction j as [|j IH]; intros f slice st Hg Hs Hlt Hacc Href.
  - assert (Hin : 0 <= slice < nVoxel g Axis.Y) by lia.
    destruct (afterChunk_prefix CAVITY_NUM CAVITY_DEN e K objectType g Hfits
                st slice Hg Hin) as [_ Hcells].
    assert (Htaken : chunkTaken e K st slice = 0).
    { unfold chunkTaken. rewrite Hg.
      pose proof (Href (chunkCount K g slice)) as Hr.
      rewrite Nat.add_0_r in Hr. lia. }
    eexists. cbn [Nat.add].
    rewrite generationLoop_step by (rewrite Hg; lia).
    rewrite Htaken. cbn [Z.eqb]. split; [reflexivity|].
    cbn [print gl filePoiter printed]. rewrite Hcells, Htaken.
    unfold afterChunk. cbn [gl filePoiter calls firstn Z.to_nat map].
    replace (Z.to_nat (K * Z.of_nat 0)) with 0%nat by lia.
    repeat split; try assumption. lia.
  - assert (Hin : 0 <= slice < nVoxel g Axis.Y) by lia.
    destruct (afterChunk_prefix CAVITY_NUM CAVITY_DEN e K objectType g Hfits
                st slice Hg Hin) as [_ Hcells].
    assert (Hmin : Z.min K (nVoxel g Axis.Y - slice) = K) by lia.
    rewrite Hmin in Hcells.
    assert (Hcount : chunkCount K g slice = nVoxel g Axis.X * nVoxel g Axis.Z * K).
    { rewrite (chunkCount_product K g Hfits slice Hin), Hmin. reflexivity. }
    assert (Htaken : chunkTaken e K st slice = nVoxel g Axis.X * nVoxel g Axis.Z * K).
    { unfold chunkTaken. rewrite Hg.
      pose proof (Hacc 0%nat (chunkCount K g slice) ltac:(lia)) as Ha.
      rewrite Nat.add_0_r in Ha. rewrite Hcount in *. nia. }
    assert (Hall : Z.to_nat (chunkTaken e K st slice)
                   = List.length (layers g d slice (Z.to_nat K))).
    { rewrite Htaken, layers_length. nia. }
    rewrite Hall, firstn_all in Hcells.
    set (st1 := afterChunk CAVITY_NUM CAVITY_DEN e K objectType st slice) in *.
    assert (Hg1 : gl st1 = g) by (unfold st1, afterChunk; simpl; exact Hg).
    assert (Hcalls1 : calls (filePoiter st1) = S (calls (filePoiter st)))
      by reflexivity.
    destruct (IH f (slice + K) st1 Hg1) as (st' & Hrun & Hg' & Hc & Hn & Hp).
    + lia.
    + lia.
    + intros i c Hi. rewrite Hcalls1.
      replace (S (calls (filePoiter st)) + i)%nat
        with (calls (filePoiter st) + S i)%nat by lia.
      apply Hacc. lia.
    + intros c. rewrite Hcalls1.
      replace (S (calls (filePoiter st)) + j)%nat
        with (calls (filePoiter st) + S j)%nat by lia.
      apply Href.
    + exists st'. split.
      * change (S (S j) + f)%nat with (S (S j + f)).
        rewrite generationLoop_step by (rewrite Hg; lia).
        rewrite Htaken.
        destruct (Z.eqb_spec (nVoxel g Axis.X * nVoxel g Axis.Z * K) 0); [nia|].
        unfold CInt.add.
        rewrite wrap_in_range
          by (unfold CInt.in_range, CInt.INT_MIN, CInt.INT_MAX in *; lia).
        exact Hrun.
      * split; [exact Hg'|]. split; [|split].
        -- rewrite Hc, Hcells, <- app_assoc, <- map_app. do 2 f_equal.
           replace (Z.to_nat (K * Z.of_nat (S j)))
             with (Z.to_nat K + Z.to_nat (K * Z.of_nat j))%nat by nia.
           rewrite layers_app. do 2 f_equal. lia.
        -- rewrite Hn, Hcalls1. lia.
        -- rewrite Hp. reflexivity.
Qed.

End Refusal.

(** X5.  When the device takes the first [j] data chunks in full and
    nothing of the next append (a slice holding at least one voxel, sizes
    within the range of [int]), the loop of [main] stops at that append,
    the [j+1]-th: it leaves with status 4 after printing its message
    once, and the file has grown by exactly the first [100 * j] slices,
    complete and in order; nothing of a later chunk is written. *)
Theorem loop_stops_at_first_refusal (CAVITY_NUM CAVITY_DEN : Z) (e : Env)
    (objectType : Z) (st : State) (j f : nat) :
  fits (gl st) OBJ_BUFFER ->
  0 < nVoxel (gl st) Axis.X ->
  0 < nVoxel (gl st) Axis.Z ->
  OBJ_BUFFER * Z.of_nat j < nVoxel (gl st) Axis.Y ->
  (forall i c, (i < j)%nat -> c <= device e (calls (filePoiter st) + i)%nat c) ->
  (forall c, device e (calls (filePoiter st) + j)%nat c <= 0) ->
  exists st',
    generationLoop CAVITY_NUM CAVITY_DEN e (S j + f) OBJ_BUFFER objectType 0 st
    = Some (Exited 4, st') /\
    contents (filePoiter st')
    = contents (filePoiter st)
      ++ map DoubleCell
           (layers (gl st) (density_of CAVITY_NUM CAVITY_DEN objectType (gl st)) 0
              (Z.to_nat (OBJ_BUFFER * Z.of_nat j))) /\
    calls (filePoiter st') = (calls (filePoiter st) + S j)%nat /\
    printed st' = printed st ++ [UnableToWriteOnFile].
Proof.
  intros Hfits HX HZ Hlt Hacc Href.
  destruct (generationLoop_refused CAVITY_NUM CAVITY_DEN e OBJ_BUFFER objectType
              (gl st) Hfits HX HZ j f 0 st eq_refl (Z.le_refl 0))
    as (st' & Hrun & _ & Hc & Hn & Hp); try assumption.
  exists st'. repeat split; assumption.
Qed.

Lemma loop_stops_at_first_refusal_witness :
  let st := stateBeforeLoop tall_defaults false full_after_one_chunk argv2 in
  exists st',
    generationLoop 1 2 full_after_one_chunk (S 1 + 0) OBJ_BUFFER 0 0 st
    = Some (Exited 4, st') /\
    contents (filePoiter st')
    = contents (filePoiter st)
      ++ map DoubleCell
           (layers (gl st) (density_of 1 2 0 (gl st)) 0
              (Z.to_nat (OBJ_BUFFER * Z.of_nat 1))) /\
    calls (filePoiter st') = (calls (filePoiter st) + S 1)%nat /\
    printed st' = printed st ++ [UnableToWriteOnFile].
Proof.
  apply (loop_stops_at_first_refusal 1 2 full_after_one_chunk 0
           (stateBeforeLoop tall_defaults false full_after_one_chunk argv2) 1 0).
  - unfold fits, OBJ_BUFFER.
    change (nVoxel (gl (stateBeforeLoop tall_defaults false full_after_one_chunk argv2))
              Axis.X) with 1.
    change (nVoxel (gl (stateBeforeLoop tall_defaults false full_after_one_chunk argv2))
              Axis.Y) with 150.
    change (nVoxel (gl (stateBeforeLoop tall_defaults false full_after_one_chunk argv2))
              Axis.Z) with 1.
    unfold CInt.INT_MAX. lia.
  - reflexivity.
  - reflexivity.
  - reflexivity.
  - intros i c Hi. assert (i = 0%nat) by lia. subst i. simpl. lia.
  - intros c. simpl. lia.
Defined.

(** ** X6, X7, X9: the resolved parameters *)

Lemma wrap_range (z : Z) : CInt.in_range (CInt.wrap z).
Proof.
  unfold CInt.in_range, CInt.wrap, CInt.INT_MIN, CInt.INT_MAX.
  pose proof (Z.mod_pos_bound (z + 2 ^ 31) (2 ^ 32) ltac:(lia)). lia.
Qed.

Lemma atoi_range (s : string) : CInt.in_range (atoi s).
Proof. apply wrap_range. Qed.

(** The two globals of the detector after a resolution from a pixel
    count. *)
Lemma resolve_detector (D : Defaults) (argv : list string) :
  List.length argv = 4%nat ->
  gl_detectorSideLength (resolve D argv) = CInt.mul (atoi (arg argv 3)) (PIXEL_DIM D) /\
  gl_pixelDim (resolve D argv) = PIXEL_DIM D.
Proof.
  intros Hlen. unfold resolve. rewrite Hlen.
  change (Z.of_nat 4 >? 3) with true. cbv iota. split; reflexivity.
Qed.

(** X6.  The pixel count given on the command line can be read back from
    the resolved geometry the way [N_PIXEL_ALONG_SIDE] reads it from the
    defaults: when the pixel size is not 0 and [n * pixelDim] fits an
    [int], [detectorSideLength / pixelDim] is [n]. *)
Theorem pixel_count_read_back (D : Defaults) (argv : list string) :
  List.length argv = 4%nat ->
  PIXEL_DIM D <> 0 ->
  CInt.in_range (atoi (arg argv 3) * PIXEL_DIM D) ->
  let g := resolve D argv in
  CInt.div (gl_detectorSideLength g) (gl_pixelDim g) = atoi (arg argv 3).
Proof.
  intros Hlen Hpix Hrange. cbv zeta.
  destruct (resolve_detector D argv Hlen) as [-> ->].
  unfold CInt.mul, CInt.div.
  rewrite (wrap_in_range _ Hrange), Z.quot_mul by exact Hpix.
  apply wrap_in_range, atoi_range.
Qed.

Lemma pixel_count_read_back_witness :
  let g := resolve small_defaults ["inputgeneration"; "output.dat"; "2"; "37"]%string in
  CInt.div (gl_detectorSideLength g) (gl_pixelDim g) = 37.
Proof.
  apply (pixel_count_read_back small_defaults
           ["inputgeneration"; "output.dat"; "2"; "37"]%string).
  - reflexivity.
  - vm_compute. discriminate.
  - vm_compute. split; discriminate.
Defined.

(** The two steps of the resolution on globals given field by field. *)
Lemma setUpFromPixels_fields (D : Defaults) (n a b c d e f s h i j : Z)
    (nv np : int3) :
  setUpFromPixels D n (mkGlobals a b c d e f s h i j nv np)
  = let side :=
      CDouble.to_int
        (PrimFloat.mul
           (CDouble.of_int (CInt.mul n h))
           (PrimFloat.div
              (CDouble.of_int (OBJECT_SIDE_LENGTH D))
              (CDouble.of_int (CInt.mul (VOXEL_X_DIM D) (N_PIXEL_ALONG_SIDE D))))) in
    mkGlobals a b c side (CInt.mul n a)
      (CDouble.to_int (PrimFloat.mul 1.5%float (CDouble.of_int side)))
      (CInt.mul 6 side) h i j nv np.
Proof. reflexivity. Qed.

Lemma computeGridCounts_fields (a b c d e f s h i j : Z) (nv np : int3) :
  computeGridCounts (mkGlobals a b c d e f s h i j nv np)
  = mkGlobals a b c d e f s h i j
      (mk3 (CInt.div d h) (CInt.div d i) (CInt.div d j))
      (mk3 (CInt.add (CInt.div d h) 1) (CInt.add (CInt.div d i) 1)
         (CInt.add (CInt.div d j) 1)).
Proof. reflexivity. Qed.

(** X7.  The initialisers [N_VOXEL_*] and [N_PLANES_*] of [gl_nVoxel] and
    [gl_nPlanes] never reach the output: two builds whose defaults differ
    in these six macros only resolve the same parameters and, on a command
    line of 2 to 4 words, make the same run. *)
Theorem count_initialisers_unused (D D' : Defaults) (RAW : bool)
    (CAVITY_NUM CAVITY_DEN : Z) (e : Env) (fuel : nat) (argv : list string) :
  PIXEL_DIM D = PIXEL_DIM D' ->
  ANGULAR_TRAJECTORY D = ANGULAR_TRAJECTORY D' ->
  POSITIONS_ANGULAR_DISTANCE D = POSITIONS_ANGULAR_DISTANCE D' ->
  OBJECT_SIDE_LENGTH D = OBJECT_SIDE_LENGTH D' ->
  DETECTOR_SIDE_LENGTH D = DETECTOR_SIDE_LENGTH D' ->
  DISTANCE_OBJECT_DETECTOR D = DISTANCE_OBJECT_DETECTOR D' ->
  DISTANCE_OBJECT_SOURCE D = DISTANCE_OBJECT_SOURCE D' ->
  VOXEL_X_DIM D = VOXEL_X_DIM D' ->
  VOXEL_Y_DIM D = VOXEL_Y_DIM D' ->
  VOXEL_Z_DIM D = VOXEL_Z_DIM D' ->
  resolve D argv = resolve D' argv /\
  (argc_ok argv ->
   main D RAW CAVITY_NUM CAVITY_DEN e fuel argv
   = main D' RAW CAVITY_NUM CAVITY_DEN e fuel argv).
Proof.
  intros H1 H2 H3 H4 H5 H6 H7 H8 H9 H10.
  assert (Hres : resolve D argv = resolve D' argv).
  { unfold resolve, initial_globals.
    destruct (Z.of_nat (List.length argv) >? 3).
    - rewrite !setUpFromPixels_fields. cbv zeta.
      rewrite !computeGridCounts_fields. unfold N_PIXEL_ALONG_SIDE.
      rewrite H1, H4, H5, H8, H9, H10, H2, H3. reflexivity.
    - rewrite !computeGridCounts_fields.
      rewrite H1, H2, H3, H4, H5, H6, H7, H8, H9, H10. reflexivity. }
  split; [exact Hres|].
  intros Hargc. unfold main.
  apply argc_test in Hargc as Htest. rewrite Htest, Hres. reflexivity.
Qed.

Lemma count_initialisers_unused_witness :
  let D' :=
    {| PIXEL_DIM := 100; ANGULAR_TRAJECTORY := 90; POSITIONS_ANGULAR_DISTANCE := 15;
       OBJECT_SIDE_LENGTH := 400; DETECTOR_SIDE_LENGTH := 600;
       DISTANCE_OBJECT_DETECTOR := 600; DISTANCE_OBJECT_SOURCE := 2400;
       VOXEL_X_DIM := 100; VOXEL_Y_DIM := 100; VOXEL_Z_DIM := 100;
       N_VOXEL_X := 9; N_VOXEL_Y := 8; N_VOXEL_Z := 7;
       N_PLANES_X := 0; N_PLANES_Y := 0; N_PLANES_Z := 0 |} in
  resolve small_defaults argv_cube = resolve D' argv_cube /\
  (argc_ok argv_cube ->
   main small_defaults false 1 2 perfect_env 1 argv_cube
   = main D' false 1 2 perfect_env 1 argv_cube).
Proof.
  apply count_initialisers_unused; reflexivity.
Defined.

(** X9.  For a side length that is not negative and voxel sizes that are
    positive, the voxels counted along an axis fit inside the object and
    leave less than one voxel uncovered, and the planes are one more:
    [nVoxel[i] * voxelDim[i] <= objectSideLength < nPlanes[i] * voxelDim[i]]. *)
Theorem grid_covers_object (D : Defaults) (argv : list string) (k : Axis.t) :
  let g := resolve D argv in
  0 <= gl_objectSideLenght g < CInt.INT_MAX ->
  0 < voxelDim g k ->
  0 <= nVoxel g k /\
  nVoxel g k * voxelDim g k <= gl_objectSideLenght g /\
  gl_objectSideLenght g < nPlanes g k * voxelDim g k.
Proof.
  cbv zeta. intros HL Hv.
  assert (Hdef : nVoxel (resolve D argv) k
                 = CInt.div (gl_objectSideLenght (resolve D argv))
                     (voxelDim (resolve D argv) k)
                 /\ nPlanes (resolve D argv) k
                    = CInt.add (CInt.div (gl_objectSideLenght (resolve D argv))
                                  (voxelDim (resolve D argv) k)) 1).
  { unfold resolve.
    match goal with
    | |- context [computeGridCounts ?g1] =>
        destruct (computeGridCounts_spec g1 k) as (HL1 & HD1 & HV1 & HP1)
    end.
    rewrite HV1, HP1, HL1, HD1. split; reflexivity. }
  destruct Hdef as [Hn Hp].
  destruct (int_div_quot (gl_objectSideLenght (resolve D argv))
              (voxelDim (resolve D argv) k)) as [Hq Hs];
    [unfold CInt.INT_MIN; lia | exact Hv |].
  rewrite Hp, Hn, Hq, Hs.
  rewrite Z.quot_div_nonneg by lia.
  pose proof (Z.mul_div_le (gl_objectSideLenght (resolve D argv))
                (voxelDim (resolve D argv) k) Hv).
  pose proof (Z.mul_succ_div_gt (gl_objectSideLenght (resolve D argv))
                (voxelDim (resolve D argv) k) Hv).
  pose proof (Z.div_pos (gl_objectSideLenght (resolve D argv))
                (voxelDim (resolve D argv) k) ltac:(lia) Hv).
  lia.
Qed.

Lemma grid_covers_object_witness :
  let g := resolve small_defaults ["inputgeneration"; "output.dat"; "2"; "37"]%string in
  0 <= nVoxel g Axis.Y /\
  nVoxel g Axis.Y * voxelDim g Axis.Y <= gl_objectSideLenght g /\
  gl_objectSideLenght g < nPlanes g Axis.Y * voxelDim g Axis.Y.
Proof.
  apply (grid_covers_object small_defaults
           ["inputgeneration"; "output.dat"; "2"; "37"]%string Axis.Y).
  - vm_compute. split; [discriminate | reflexivity].
  - vm_compute. reflexivity.
Defined.

(** ** X8: the buffer *)

Lemma resolved_counts_range (D : Defaults) (argv : list string) (k : Axis.t) :
  CInt.in_range (nVoxel (resolve D argv) k).
Proof.
  unfold resolve.
  match goal with
  | |- context [computeGridCounts ?g1] =>
      destruct (computeGridCounts_spec g1 k) as (_ & _ & HV & _)
  end.
  rewrite HV. apply wrap_range.
Qed.

(** X8.  Every chunk fits the buffer allocated at line 184: for resolved
    counts within the range the loop needs, the request to [malloc] is
    [800 * nVoxel[X] * nVoxel[Z]] bytes without wrap-around, each chunk
    holds 1 to 100 slices, and both the values a generator stores for it
    and the elements [fwrite] is asked to read stay within those bytes. *)
Theorem chunk_within_buffer (D : Defaults) (argv : list string)
    (density : Z -> Z -> Z -> float) (slice : Z) :
  let g := resolve D argv in
  fits g OBJ_BUFFER ->
  0 <= slice < nVoxel g Axis.Y ->
  let n := chunkSlices OBJ_BUFFER g slice in
  gridBytes g = sizeof_double * (nVoxel g Axis.X * nVoxel g Axis.Z * OBJ_BUFFER) /\
  1 <= n <= OBJ_BUFFER /\
  sizeof_double * Z.of_nat (List.length (layers g density slice (Z.to_nat n)))
  <= gridBytes g /\
  sizeof_double * chunkCount OBJ_BUFFER g slice <= gridBytes g.
Proof.
  cbv zeta. intros Hfits Hs.
  pose proof (resolved_counts_range D argv Axis.X) as [_ Hx].
  pose proof (resolved_counts_range D argv Axis.Z) as [_ Hz].
  set (g := resolve D argv) in *.
  rewrite (chunkCount_product OBJ_BUFFER g Hfits slice Hs),
          (chunkSlices_min OBJ_BUFFER g Hfits slice Hs).
  destruct Hfits as (HX & HZ & HK & Hprod & HY).
  set (x := nVoxel g Axis.X) in *. set (z := nVoxel g Axis.Z) in *.
  unfold OBJ_BUFFER, CInt.INT_MAX in *.
  assert (Hxz : 0 <= x * z <= 21474836) by nia.
  assert (Hbytes : gridBytes g = sizeof_double * (x * z * 100)).
  { unfold gridBytes, CInt.size_mul, CInt.to_size_t, sizeof_double, OBJ_BUFFER.
    fold x. fold z.
    rewrite (Z.mod_small x), (Z.mod_small z), (Z.mod_small 100) by lia.
    rewrite (Z.mod_small (8 * x)) by lia.
    rewrite (Z.mod_small (8 * x * z)) by nia.
    rewrite Z.mod_small by nia. lia. }
  rewrite Hbytes, layers_length. fold x. fold z. unfold sizeof_double.
  split; [reflexivity|]. split; [lia|]. split; nia.
Qed.

Lemma chunk_within_buffer_witness :
  let g := resolve tall_defaults argv2 in
  let n := chunkSlices OBJ_BUFFER g 100 in
  gridBytes g = sizeof_double * (nVoxel g Axis.X * nVoxel g Axis.Z * OBJ_BUFFER) /\
  1 <= n <= OBJ_BUFFER /\
  sizeof_double * Z.of_nat (List.length (layers g cube_density 100 (Z.to_nat n)))
  <= gridBytes g /\
  sizeof_double * chunkCount OBJ_BUFFER g 100 <= gridBytes g.
Proof.
  apply (chunk_within_buffer tall_defaults argv2 cube_density 100).
  - unfold fits, OBJ_BUFFER.
    change (nVoxel (resolve tall_defaults argv2) Axis.X) with 1.
    change (nVoxel (resolve tall_defaults argv2) Axis.Y) with 150.
    change (nVoxel (resolve tall_defaults argv2) Axis.Z) with 1.
    unfold CInt.INT_MAX. lia.
  - change (nVoxel (resolve tall_defaults argv2) Axis.Y) with 150. lia.
Defined.
